(** * pdfEdit: the annotation placement and export model

    A shallow embedding of the React components of the PDF annotation
    tool ([PDFEditor.tsx], [PDFUploader.tsx], [App.tsx], the
    signature-capture widget): component state becomes a record, every
    event handler a function from state to state, and the export loop a
    computation in the option monad that collects the draw instructions
    handed to the document-mutation library.

    Number model.  The fields typed [number] in the source that hold
    coordinates, sizes and the zoom factor are modelled as rationals [Q]
    and the handlers' [-], [*], [/], [Math.max] and [Math.min] as the
    rational operations.  The theorems state positions with the very
    expression the code evaluates, or bounds that [Math.max] and
    [Math.min] enforce; none of them relies on the arithmetic being exact,
    which it is not for binary64 numbers.  Numeric results are compared
    with [==] ([Qeq]) unless they are syntactically the value the code
    computes.  Page numbers are indices into the page array and are
    modelled as [Z].

    Effects.  A handler's state updates take effect together; the one
    effect whose closure matters, the one that registers the drag
    listeners, is modelled by [dragEffect]. *)

From Stdlib Require Import QArith Qminmax Lqa ZArith NArith String Lia.
From stdpp Require Import base option list.

Local Open Scope Q_scope.

(** ** JavaScript primitives used by the components *)

(** [Math.max] and [Math.min] on numbers. *)
Definition Math_max (a b : Q) : Q := Qmax a b.
Definition Math_min (a b : Q) : Q := Qmin a b.

(** [v || d] for an optional number: [undefined] and [0] are falsy. *)
Definition or_default (v : option Q) (d : Q) : Q :=
  match v with
  | Some q => if Qeq_bool q 0 then d else q
  | None => d
  end.

(** The text typed by the user is a JavaScript string: a sequence of
    UTF-16 code units. *)
Abbreviation jsstring := (list N).

(** ECMAScript [WhiteSpace] and [LineTerminator] code points, the ones
    [String.prototype.trim] strips. *)
Definition is_white_space (c : N) : bool :=
  ((c =? 0x09) || (c =? 0x0A) || (c =? 0x0B) || (c =? 0x0C) || (c =? 0x0D)
   || (c =? 0x20) || (c =? 0xA0) || (c =? 0x1680)
   || ((0x2000 <=? c) && (c <=? 0x200A))
   || (c =? 0x2028) || (c =? 0x2029) || (c =? 0x202F) || (c =? 0x205F)
   || (c =? 0x3000) || (c =? 0xFEFF))%N.

Fixpoint trimStart (s : jsstring) : jsstring :=
  match s with
  | [] => []
  | c :: rest => if is_white_space c then trimStart rest else s
  end.

Definition trimEnd (s : jsstring) : jsstring := reverse (trimStart (reverse s)).

Definition trim (s : jsstring) : jsstring := trimEnd (trimStart s).

(** A string is truthy exactly when it is not empty. *)
Definition truthy (s : jsstring) : bool :=
  match s with [] => false | _ :: _ => true end.

(** The idiom [prev.map((a, i) => i === index ? f(a) : a)] that every
    in-place update of an annotation goes through. *)
Definition mapAt {A} (index : nat) (f : A → A) (prev : list A) : list A :=
  imap (λ i a, if bool_decide (i = index) then f a else a) prev.

(** ** Data model *)

Inductive Tool := ToolText | ToolSignature | ToolNone.

Inductive AnnotationType := TypeText | TypeSignature.

Record Position := { pos_x : Q; pos_y : Q }.

Module Text.
Record t := {
  x : Q;
  y : Q;
  text : jsstring;
  pageNumber : Z;
  fontSize : option Q;
  isResizing : option bool
}.

(** [{ ...annotation, x: nx, y: ny }] *)
Definition moveTo (nx ny : Q) (a : t) : t :=
  {| x := nx; y := ny; text := text a; pageNumber := pageNumber a;
     fontSize := fontSize a; isResizing := isResizing a |}.

(** [{ ...a, fontSize: v }] *)
Definition withFontSize (v : Q) (a : t) : t :=
  {| x := x a; y := y a; text := text a; pageNumber := pageNumber a;
     fontSize := Some v; isResizing := isResizing a |}.
End Text.

Module Signature.
Record t := {
  x : Q;
  y : Q;
  dataUrl : string;
  width : Q;
  height : Q;
  pageNumber : Z;
  scale : option Q
}.

Definition moveTo (nx ny : Q) (a : t) : t :=
  {| x := nx; y := ny; dataUrl := dataUrl a; width := width a;
     height := height a; pageNumber := pageNumber a; scale := scale a |}.

(** [{ ...a, width: w, height: h }] *)
Definition withSize (w h : Q) (a : t) : t :=
  {| x := x a; y := y a; dataUrl := dataUrl a; width := w;
     height := h; pageNumber := pageNumber a; scale := scale a |}.
End Signature.

(** What the handlers read off the DOM. *)
Record DOMRect := { left : Q; top : Q; rect_width : Q; rect_height : Q }.
Record MouseEvent := { clientX : Q; clientY : Q }.
Record Element := { clientWidth : Q; clientHeight : Q }.

Record File := { name : string; type : string }.

(** The state of the [PDFEditor] component: one field per [useState] and,
    last, the [draggedType] that the [mousemove] listener closes over.  The
    listener is created by the effect of lines 132-177, which React re-runs
    only after a render in which [draggedAnnotation] or [scale] changed (its
    dependency list is [[draggedAnnotation, scale]]); between two such
    renders the listener keeps the [draggedType] of the earlier one. *)
Record Editor := {
  numPages : option Z;
  pageNumber : Z;
  scale : Q;
  pdfBytes : option (list Byte.byte);
  pdfUrl : option string;
  activeTool : Tool;
  showSignatureCanvas : bool;
  textAnnotations : list Text.t;
  draggedAnnotation : option nat;
  draggedType : AnnotationType;
  signatureAnnotations : list Signature.t;
  newTextAnnotation : jsstring;
  editingText : bool;
  editingPosition : option Position;
  listenerDraggedType : AnnotationType
}.

(** The initial values of the [useState] calls; the effect has run once,
    on mount. *)
Definition initialEditor : Editor :=
  {| numPages := None; pageNumber := 1%Z; scale := 1;
     pdfBytes := None; pdfUrl := None; activeTool := ToolNone;
     showSignatureCanvas := false; textAnnotations := [];
     draggedAnnotation := None; draggedType := TypeText;
     signatureAnnotations := []; newTextAnnotation := [];
     editingText := false; editingPosition := None;
     listenerDraggedType := TypeText |}.

(** The state setters. *)
Definition setScale (v : Q) (s : Editor) : Editor :=
  {| numPages := numPages s; pageNumber := pageNumber s; scale := v;
     pdfBytes := pdfBytes s; pdfUrl := pdfUrl s; activeTool := activeTool s;
     showSignatureCanvas := showSignatureCanvas s;
     textAnnotations := textAnnotations s;
     draggedAnnotation := draggedAnnotation s; draggedType := draggedType s;
     signatureAnnotations := signatureAnnotations s;
     newTextAnnotation := newTextAnnotation s;
     editingText := editingText s; editingPosition := editingPosition s;
     listenerDraggedType := listenerDraggedType s |}.

Definition setPdfBytes (v : option (list Byte.byte)) (s : Editor) : Editor :=
  {| numPages := numPages s; pageNumber := pageNumber s; scale := scale s;
     pdfBytes := v; pdfUrl := pdfUrl s; activeTool := activeTool s;
     showSignatureCanvas := showSignatureCanvas s;
     textAnnotations := textAnnotations s;
     draggedAnnotation := draggedAnnotation s; draggedType := draggedType s;
     signatureAnnotations := signatureAnnotations s;
     newTextAnnotation := newTextAnnotation s;
     editingText := editingText s; editingPosition := editingPosition s;
     listenerDraggedType := listenerDraggedType s |}.

Definition setActiveTool (v : Tool) (s : Editor) : Editor :=
  {| numPages := numPages s; pageNumber := pageNumber s; scale := scale s;
     pdfBytes := pdfBytes s; pdfUrl := pdfUrl s; activeTool := v;
     showSignatureCanvas := showSignatureCanvas s;
     textAnnotations := textAnnotations s;
     draggedAnnotation := draggedAnnotation s; draggedType := draggedType s;
     signatureAnnotations := signatureAnnotations s;
     newTextAnnotation := newTextAnnotation s;
     editingText := editingText s; editingPosition := editingPosition s;
     listenerDraggedType := listenerDraggedType s |}.

Definition setShowSignatureCanvas (v : bool) (s : Editor) : Editor :=
  {| numPages := numPages s; pageNumber := pageNumber s; scale := scale s;
     pdfBytes := pdfBytes s; pdfUrl := pdfUrl s; activeTool := activeTool s;
     showSignatureCanvas := v;
     textAnnotations := textAnnotations s;
     draggedAnnotation := draggedAnnotation s; draggedType := draggedType s;
     signatureAnnotations := signatureAnnotations s;
     newTextAnnotation := newTextAnnotation s;
     editingText := editingText s; editingPosition := editingPosition s;
     listenerDraggedType := listenerDraggedType s |}.

Definition setTextAnnotations (v : list Text.t) (s : Editor) : Editor :=
  {| numPages := numPages s; pageNumber := pageNumber s; scale := scale s;
     pdfBytes := pdfBytes s; pdfUrl := pdfUrl s; activeTool := activeTool s;
     showSignatureCanvas := showSignatureCanvas s;
     textAnnotations := v;
     draggedAnnotation := draggedAnnotation s; draggedType := draggedType s;
     signatureAnnotations := signatureAnnotations s;
     newTextAnnotation := newTextAnnotation s;
     editingText := editingText s; editingPosition := editingPosition s;
     listenerDraggedType := listenerDraggedType s |}.

Definition setDraggedAnnotation (v : option nat) (s : Editor) : Editor :=
  {| numPages := numPages s; pageNumber := pageNumber s; scale := scale s;
     pdfBytes := pdfBytes s; pdfUrl := pdfUrl s; activeTool := activeTool s;
     showSignatureCanvas := showSignatureCanvas s;
     textAnnotations := textAnnotations s;
     draggedAnnotation := v; draggedType := draggedType s;
     signatureAnnotations := signatureAnnotations s;
     newTextAnnotation := newTextAnnotation s;
     editingText := editingText s; editingPosition := editingPosition s;
     listenerDraggedType := listenerDraggedType s |}.

Definition setDraggedType (v : AnnotationType) (s : Editor) : Editor :=
  {| numPages := numPages s; pageNumber := pageNumber s; scale := scale s;
     pdfBytes := pdfBytes s; pdfUrl := pdfUrl s; activeTool := activeTool s;
     showSignatureCanvas := showSignatureCanvas s;
     textAnnotations := textAnnotations s;
     draggedAnnotation := draggedAnnotation s; draggedType := v;
     signatureAnnotations := signatureAnnotations s;
     newTextAnnotation := newTextAnnotation s;
     editingText := editingText s; editingPosition := editingPosition s;
     listenerDraggedType := listenerDraggedType s |}.

Definition setSignatureAnnotations (v : list Signature.t) (s : Editor) : Editor :=
  {| numPages := numPages s; pageNumber := pageNumber s; scale := scale s;
     pdfBytes := pdfBytes s; pdfUrl := pdfUrl s; activeTool := activeTool s;
     showSignatureCanvas := showSignatureCanvas s;
     textAnnotations := textAnnotations s;
     draggedAnnotation := draggedAnnotation s; draggedType := draggedType s;
     signatureAnnotations := v;
     newTextAnnotation := newTextAnnotation s;
     editingText := editingText s; editingPosition := editingPosition s;
     listenerDraggedType := listenerDraggedType s |}.

Definition setNewTextAnnotation (v : jsstring) (s : Editor) : Editor :=
  {| numPages := numPages s; pageNumber := pageNumber s; scale := scale s;
     pdfBytes := pdfBytes s; pdfUrl := pdfUrl s; activeTool := activeTool s;
     showSignatureCanvas := showSignatureCanvas s;
     textAnnotations := textAnnotations s;
     draggedAnnotation := draggedAnnotation s; draggedType := draggedType s;
     signatureAnnotations := signatureAnnotations s;
     newTextAnnotation := v;
     editingText := editingText s; editingPosition := editingPosition s;
     listenerDraggedType := listenerDraggedType s |}.

Definition setEditingText (v : bool) (s : Editor) : Editor :=
  {| numPages := numPages s; pageNumber := pageNumber s; scale := scale s;
     pdfBytes := pdfBytes s; pdfUrl := pdfUrl s; activeTool := activeTool s;
     showSignatureCanvas := showSignatureCanvas s;
     textAnnotations := textAnnotations s;
     draggedAnnotation := draggedAnnotation s; draggedType := draggedType s;
     signatureAnnotations := signatureAnnotations s;
     newTextAnnotation := newTextAnnotation s;
     editingText := v; editingPosition := editingPosition s;
     listenerDraggedType := listenerDraggedType s |}.

Definition setEditingPosition (v : option Position) (s : Editor) : Editor :=
  {| numPages := numPages s; pageNumber := pageNumber s; scale := scale s;
     pdfBytes := pdfBytes s; pdfUrl := pdfUrl s; activeTool := activeTool s;
     showSignatureCanvas := showSignatureCanvas s;
     textAnnotations := textAnnotations s;
     draggedAnnotation := draggedAnnotation s; draggedType := draggedType s;
     signatureAnnotations := signatureAnnotations s;
     newTextAnnotation := newTextAnnotation s;
     editingText := editingText s; editingPosition := v;
     listenerDraggedType := listenerDraggedType s |}.

(** The listener registered by the last run of the effect. *)
Definition setListenerDraggedType (v : AnnotationType) (s : Editor) : Editor :=
  {| numPages := numPages s; pageNumber := pageNumber s; scale := scale s;
     pdfBytes := pdfBytes s; pdfUrl := pdfUrl s; activeTool := activeTool s;
     showSignatureCanvas := showSignatureCanvas s;
     textAnnotations := textAnnotations s;
     draggedAnnotation := draggedAnnotation s; draggedType := draggedType s;
     signatureAnnotations := signatureAnnotations s;
     newTextAnnotation := newTextAnnotation s;
     editingText := editingText s; editingPosition := editingPosition s;
     listenerDraggedType := v |}.

(** The effect of lines 132-177 after the render that takes [prev] to
    [next]: when one of its dependencies changed, the old listeners are
    removed and new ones close over the state of [next]. *)
Definition dragEffect (prev next : Editor) : Editor :=
  if bool_decide (draggedAnnotation prev = draggedAnnotation next)
     && Qeq_bool (scale prev) (scale next)
  then next
  else setListenerDraggedType (draggedType next) next.

(** ** Zoom controls *)

(** The [-] button: [setScale(prev => Math.max(0.5, prev - 0.1))],
    disabled when [scale <= 0.5]. *)
Definition handleZoomOut (st : Editor) : Editor :=
  if Qle_bool (scale st) 0.5 then st
  else dragEffect st (setScale (Math_max 0.5 (scale st - 0.1)) st).

(** The [+] button: [setScale(prev => Math.min(2.0, prev + 0.1))],
    disabled when [scale >= 2.0]. *)
Definition handleZoomIn (st : Editor) : Editor :=
  if Qle_bool 2.0 (scale st) then st
  else dragEffect st (setScale (Math_min 2.0 (scale st + 0.1)) st).

(** ** Placement *)

Definition handlePageClick (e : MouseEvent) (rect : DOMRect) (st : Editor)
  : Editor :=
  match activeTool st with
  | ToolNone => st
  | ToolText =>
      let x := (clientX e - left rect) / scale st in
      let y := (clientY e - top rect) / scale st in
      setEditingText true
        (setEditingPosition (Some {| pos_x := x; pos_y := y |}) st)
  | ToolSignature =>
      let pageRect := rect in
      setShowSignatureCanvas true
        (setEditingPosition
           (Some {| pos_x := rect_width pageRect / 2 / scale st;
                    pos_y := rect_height pageRect / 2 / scale st |}) st)
  end.

Definition handleTextSubmit (st : Editor) : Editor :=
  match truthy (trim (newTextAnnotation st)), editingPosition st with
  | true, Some p =>
      setActiveTool ToolNone
        (setEditingPosition None
           (setEditingText false
              (setNewTextAnnotation []
                 (setTextAnnotations
                    (textAnnotations st ++
                       [ {| Text.x := pos_x p; Text.y := pos_y p;
                            Text.text := newTextAnnotation st;
                            Text.pageNumber := pageNumber st;
                            Text.fontSize := Some 11;
                            Text.isResizing := None |} ]) st))))
  | _, _ => st
  end.

(** The [Cancel] button of the text prompt. *)
Definition handleTextCancel (st : Editor) : Editor :=
  setActiveTool ToolNone (setNewTextAnnotation [] (setEditingText false st)).

(** [pageElement] is the result of
    [document.querySelector('.react-pdf__Page')]. *)
Definition handleSignatureAdd (signatureDataUrl : string)
    (pageElement : option Element) (st : Editor) : Editor :=
  let defaultPosition :=
    match pageElement with
    | Some el => {| pos_x := clientWidth el / 2 / scale st;
                    pos_y := clientHeight el / 2 / scale st |}
    | None => {| pos_x := 300; pos_y := 400 |}
    end in
  let position := default defaultPosition (editingPosition st) in
  let width := 200 in
  let height := 100 in
  setActiveTool ToolNone
    (setEditingPosition None
       (setShowSignatureCanvas false
          (setSignatureAnnotations
             (signatureAnnotations st ++
                [ {| Signature.x := pos_x position;
                     Signature.y := pos_y position;
                     Signature.dataUrl := signatureDataUrl;
                     Signature.width := width;
                     Signature.height := height;
                     Signature.pageNumber := pageNumber st;
                     Signature.scale := None |} ]) st))).

Definition handleSignatureCancel (st : Editor) : Editor :=
  setActiveTool ToolNone (setShowSignatureCanvas false st).

(** ** Dragging *)

Definition handleAnnotationMouseDown (index : nat) (type : AnnotationType)
    (st : Editor) : Editor :=
  dragEffect st (setDraggedType type (setDraggedAnnotation (Some index) st)).

(** The listener: [rect] is [documentRef.current?.getBoundingClientRect()];
    [draggedAnnotation] and [scale] are those of the current state, since
    the effect re-runs when they change, [draggedType] is the one the
    listener closed over. *)
Definition handleMouseMove (e : MouseEvent) (rect : option DOMRect)
    (st : Editor) : Editor :=
  match draggedAnnotation st, rect with
  | Some dragged, Some rect =>
      let x := (clientX e - left rect) / scale st in
      let y := (clientY e - top rect) / scale st in
      match listenerDraggedType st with
      | TypeText =>
          setTextAnnotations
            (mapAt dragged (Text.moveTo x y) (textAnnotations st)) st
      | TypeSignature =>
          setSignatureAnnotations
            (mapAt dragged (Signature.moveTo x y) (signatureAnnotations st)) st
      end
  | _, _ => st
  end.

Definition handleMouseUp (st : Editor) : Editor :=
  dragEffect st (setDraggedAnnotation None st).

(** ** Resizing *)

(** The [+] and [-] buttons of a text annotation. *)
Definition handleFontSizeIncrease (index : nat) (st : Editor) : Editor :=
  setTextAnnotations
    (mapAt index
       (λ a, Text.withFontSize (or_default (Text.fontSize a) 11 + 1) a)
       (textAnnotations st)) st.

Definition handleFontSizeDecrease (index : nat) (st : Editor) : Editor :=
  setTextAnnotations
    (mapAt index
       (λ a, Text.withFontSize
               (Math_max 8 (or_default (Text.fontSize a) 11 - 1)) a)
       (textAnnotations st)) st.

(** The [+] and [-] buttons of a signature annotation.  The products are
    rational, so a grown size is never infinite, as a binary64 width is
    after some seven thousand presses of [+]; below, only lower bounds are
    stated about grown sizes. *)
Definition handleSignatureGrow (index : nat) (st : Editor) : Editor :=
  setSignatureAnnotations
    (mapAt index
       (λ a, Signature.withSize (Signature.width a * 1.1)
               (Signature.height a * 1.1) a)
       (signatureAnnotations st)) st.

Definition handleSignatureShrink (index : nat) (st : Editor) : Editor :=
  setSignatureAnnotations
    (mapAt index
       (λ a, Signature.withSize (Math_max 50 (Signature.width a * 0.9))
               (Math_max 25 (Signature.height a * 0.9)) a)
       (signatureAnnotations st)) st.

(** ** Notifications *)

(** The argument of [toast(...)]; [variant] is absent on the success
    notices. *)
Record Toast := {
  title : string;
  description : string;
  variant : option string
}.

(** ** Export *)

Record PageSize := { page_width : Q; page_height : Q }.

Record RGB := { red : Q; green : Q; blue : Q }.
Definition rgb (r g b : Q) : RGB := {| red := r; green := g; blue := b |}.

Record DrawTextOptions := {
  text_x : Q;
  text_y : Q;
  text_size : Q;
  text_color : RGB;
  text_font : string;
  text_opacity : Q
}.

Record DrawImageOptions := {
  image_x : Q;
  image_y : Q;
  image_width : Q;
  image_height : Q
}.

(** An embedded PNG, as the document-mutation library hands it back. *)
Record PDFImage := { png : list Byte.byte }.

(** The calls [page.drawText(text, options)] and
    [page.drawImage(img, options)], tagged with the index of [page] in
    [pdfDoc.getPages()]. *)
Inductive DrawInstruction :=
| DrawText (page : nat) (text : jsstring) (options : DrawTextOptions)
| DrawImage (page : nat) (img : PDFImage) (options : DrawImageOptions).

(** The result of one click on [Download PDF]. *)
Inductive DownloadResult :=
| NotLoaded
| Downloaded (instructions : list DrawInstruction) (bytes : list Byte.byte)
    (download : string) (notice : Toast)
| ExportFailed (notice : Toast).

(** [pages[pageNumber - 1]] followed by [page.getSize()]: an index outside
    the array yields [undefined], on which [getSize] throws. *)
Definition getPage (pages : list PageSize) (pageNumber : Z)
  : option (nat * PageSize) :=
  if (pageNumber - 1 <? 0)%Z then None
  else
    let i := Z.to_nat (pageNumber - 1) in
    (λ page, (i, page)) <$> pages !! i.

Section Exporter.

(** The document-mutation library: [PDFDocument.load] with the sizes of
    the pages it finds, [pdfDoc.embedPng] and [pdfDoc.save]; each may
    throw, which is [None].  [encodes text] tells whether the embedded
    standard Helvetica can encode [text]: [page.drawText] throws when it
    cannot.  Embedding the font itself does not fail. *)
Variable load : list Byte.byte → option (list PageSize).
Variable encodes : jsstring → bool.
Variable embedPng : string → option PDFImage.
Variable save : list PageSize → list DrawInstruction → option (list Byte.byte).

(** The body of the first loop of [handleDownload]. *)
Definition exportText (pages : list PageSize) (annotation : Text.t)
  : option DrawInstruction :=
  '(i, page) ← getPage pages (Text.pageNumber annotation);
  let height := page_height page in
  if encodes (Text.text annotation) then
    Some (DrawText i (Text.text annotation)
            {| text_x := Text.x annotation;
               text_y := height - Text.y annotation;
               text_size := 11;
               text_color := rgb 0 0 0;
               text_font := "Helvetica";
               text_opacity := 0.95 |})
  else None.

(** The body of the second loop. *)
Definition exportSignature (pages : list PageSize)
    (annotation : Signature.t) : option DrawInstruction :=
  '(i, page) ← getPage pages (Signature.pageNumber annotation);
  let height := page_height page in
  img ← embedPng (Signature.dataUrl annotation);
  Some (DrawImage i img
          {| image_x := Signature.x annotation;
             image_y := height - Signature.y annotation
                        - Signature.height annotation;
             image_width := Signature.width annotation;
             image_height := Signature.height annotation |}).

(** The [try] block up to [pdfDoc.save()]. *)
Definition exportDocument (st : Editor) (bytes : list Byte.byte)
  : option (list DrawInstruction * list Byte.byte) :=
  pages ← load bytes;
  texts ← mapM (exportText pages) (textAnnotations st);
  signatures ← mapM (exportSignature pages) (signatureAnnotations st);
  modifiedPdfBytes ← save pages (texts ++ signatures);
  Some (texts ++ signatures, modifiedPdfBytes).

Definition handleDownload (file : File) (st : Editor) : DownloadResult :=
  match pdfBytes st with
  | None => NotLoaded
  | Some bytes =>
      match exportDocument st bytes with
      | Some (instructions, modifiedPdfBytes) =>
          Downloaded instructions modifiedPdfBytes
            (String.append "edited_" (name file))
            {| title := "Success";
               description := "PDF downloaded with your edits";
               variant := None |}
      | None =>
          ExportFailed
            {| title := "Error";
               description := "Failed to save PDF file";
               variant := Some "destructive"%string |}
      end
  end.

End Exporter.

(** ** Upload *)

(** The state around the editor: [selectedFile] of [App], [isDragging] of
    [PDFUploader] and the notices handed to the toaster. *)
Record Shell := {
  selectedFile : option File;
  isDragging : bool;
  toasts : list Toast
}.

Definition initialShell : Shell :=
  {| selectedFile := None; isDragging := false; toasts := [] |}.

Definition toast (t : Toast) (s : Shell) : Shell :=
  {| selectedFile := selectedFile s; isDragging := isDragging s;
     toasts := toasts s ++ [t] |}.

Definition setIsDragging (v : bool) (s : Shell) : Shell :=
  {| selectedFile := selectedFile s; isDragging := v; toasts := toasts s |}.

Definition handleFileUpload (file : File) (s : Shell) : Shell :=
  {| selectedFile := Some file; isDragging := isDragging s;
     toasts := toasts s |}.

Definition validateAndUploadFile (file : File) (s : Shell) : Shell :=
  if negb (String.eqb (type file) "application/pdf") then
    toast {| title := "Invalid file type";
             description := "Please upload a PDF file";
             variant := Some "destructive"%string |} s
  else
    toast {| title := "File uploaded";
             description :=
               String.append (name file) " has been uploaded successfully";
             variant := None |}
      (handleFileUpload file s).

(** [files] is [e.dataTransfer.files]. *)
Definition handleDrop (files : list File) (s : Shell) : Shell :=
  let s := setIsDragging false s in
  match files with
  | file :: _ => validateAndUploadFile file s
  | [] => s
  end.

(** [files] is [e.target.files]. *)
Definition handleFileInputChange (files : list File) (s : Shell) : Shell :=
  match files with
  | file :: _ => validateAndUploadFile file s
  | [] => s
  end.

(** What [App] renders: the uploader while no file is selected, else the
    editor, which is the only component that mounts the page renderer. *)
Inductive View := UploaderView | EditorView (file : File).

Definition App (s : Shell) : View :=
  match selectedFile s with
  | None => UploaderView
  | Some file => EditorView file
  end.

(** The page renderer ([Document] and [Page] of react-pdf) runs only inside
    a mounted editor whose blob URL is set. *)
Definition rendersPage (s : Shell) (st : Editor) : bool :=
  match App s, pdfUrl st with
  | EditorView _, Some _ => true
  | _, _ => false
  end.

(** ** Live preview *)

(** The inline [style] of a rendered text annotation. *)
Record TextStyle := {
  style_left : Q;
  style_top : Q;
  style_fontSize : Q;
  style_opacity : Q
}.

Definition textStyle (st : Editor) (annotation : Text.t) : TextStyle :=
  {| style_left := Text.x annotation * scale st;
     style_top := Text.y annotation * scale st;
     style_fontSize := or_default (Text.fontSize annotation) 11 * scale st;
     style_opacity := 0.95 |}.

(** ** Interaction sequences *)

(** A string [trim] reduces to the empty string. *)
Definition blank (s : jsstring) : Prop :=
  Forall (λ c, is_white_space c = true) s.

(** The font size the preview shows for an annotation. *)
Definition shownFontSize (a : Text.t) : Q := or_default (Text.fontSize a) 11.

(** Presses of the font-size buttons, each on the annotation rendered with
    the given index. *)
Inductive FontButton := FontPlus | FontMinus.

Definition pressFont (st : Editor) (press : FontButton * nat) : Editor :=
  match press with
  | (FontPlus, index) => handleFontSizeIncrease index st
  | (FontMinus, index) => handleFontSizeDecrease index st
  end.

Definition pressShrink (st : Editor) (index : nat) : Editor :=
  handleSignatureShrink index st.

(** A drag session up to, but not including, the release of the pointer:
    pointer-down on annotation [index] of kind [type], then one
    [mousemove] per entry of [moves], each with the bounding rectangle of
    the document surface at that moment. *)
Definition dragging (index : nat) (type : AnnotationType)
    (moves : list (MouseEvent * DOMRect)) (st : Editor) : Editor :=
  foldl (λ s m, handleMouseMove (fst m) (Some (snd m)) s)
    (handleAnnotationMouseDown index type st) moves.

(** Every interaction with the editor. *)
Inductive Event :=
| SelectTool (tool : Tool)
| PageClick (e : MouseEvent) (rect : DOMRect)
| TextInput (value : jsstring)
| TextSubmit
| TextCancel
| SignatureAdd (signatureDataUrl : string) (pageElement : option Element)
| SignatureCancel
| AnnotationMouseDown (index : nat) (type : AnnotationType)
| MouseMove (e : MouseEvent) (rect : option DOMRect)
| MouseUp
| FontSizeIncrease (index : nat)
| FontSizeDecrease (index : nat)
| SignatureGrow (index : nat)
| SignatureShrink (index : nat)
| ZoomIn
| ZoomOut.

Definition step (st : Editor) (ev : Event) : Editor :=
  match ev with
  | SelectTool tool => setActiveTool tool st
  | PageClick e rect => handlePageClick e rect st
  | TextInput value => setNewTextAnnotation value st
  | TextSubmit => handleTextSubmit st
  | TextCancel => handleTextCancel st
  | SignatureAdd url el => handleSignatureAdd url el st
  | SignatureCancel => handleSignatureCancel st
  | AnnotationMouseDown index type => handleAnnotationMouseDown index type st
  | MouseMove e rect => handleMouseMove e rect st
  | MouseUp => handleMouseUp st
  | FontSizeIncrease index => handleFontSizeIncrease index st
  | FontSizeDecrease index => handleFontSizeDecrease index st
  | SignatureGrow index => handleSignatureGrow index st
  | SignatureShrink index => handleSignatureShrink index st
  | ZoomIn => handleZoomIn st
  | ZoomOut => handleZoomOut st
  end.

Definition run (st : Editor) (events : list Event) : Editor :=
  foldl step st events.

(** ** Size floors *)

(** The stored font size is set and at least 8. *)
Definition fontFloor (a : Text.t) : Prop :=
  ∃ v, Text.fontSize a = Some v ∧ 8 <= v.

(** The stored image is at least 50 wide and 25 high. *)
Definition sizeFloor (a : Signature.t) : Prop :=
  50 <= Signature.width a ∧ 25 <= Signature.height a.

(** What every state reached from [initialEditor] satisfies. *)
Definition bounded (st : Editor) : Prop :=
  0.5 <= scale st <= 2.0
  ∧ Forall fontFloor (textAnnotations st)
  ∧ Forall sizeFloor (signatureAnnotations st).

(** ** Sample data

    A one-page Letter document, a library that accepts everything, and the
    states that the examples below run the handlers on. *)
Definition letterPage : PageSize := {| page_width := 612; page_height := 792 |}.

Definition sampleLoad (bytes : list Byte.byte) : option (list PageSize) :=
  Some [letterPage].

(** A font that encodes the printable ASCII characters. *)
Definition sampleEncodes (text : jsstring) : bool :=
  forallb (λ c, (32 <=? c)%N && (c <=? 126)%N) text.

Definition sampleEmbedPng (dataUrl : string) : option PDFImage :=
  Some {| png := [] |}.

Definition sampleSave (pages : list PageSize)
    (instructions : list DrawInstruction) : option (list Byte.byte) :=
  Some [].

Definition sampleFile : File :=
  {| name := "form.pdf"; type := "application/pdf" |}.

Definition textFile : File :=
  {| name := "notes.txt"; type := "text/plain" |}.

(** The editor once the bytes of the file have arrived. *)
Definition loadedEditor : Editor :=
  setPdfBytes (Some []) initialEditor.

(** The string [Hi]. *)
Definition sampleText : jsstring := [72%N; 105%N].

Definition surfaceAtOrigin : DOMRect :=
  {| left := 0; top := 0; rect_width := 612; rect_height := 792 |}.

Definition clickAt (cx cy : Q) : MouseEvent :=
  {| clientX := cx; clientY := cy |}.

(** Select the text tool, click the page at [(cx, cy)], type [Hi], press
    [Add]. *)
Definition placeText (cx cy : Q) (st : Editor) : Editor :=
  run st [SelectTool ToolText; PageClick (clickAt cx cy) surfaceAtOrigin;
          TextInput sampleText; TextSubmit].

(** Select the signature tool, click the page at [(cx, cy)], save the
    drawn signature. *)
Definition placeSignature (cx cy : Q) (st : Editor) : Editor :=
  run st [SelectTool ToolSignature; PageClick (clickAt cx cy) surfaceAtOrigin;
          SignatureAdd "data:image/png;base64,AAAA" None].

(** A signature placed and then dragged to (50, 80). *)
Definition signatureDraggedTo_50_80 : Editor :=
  run (placeSignature 100 200 loadedEditor)
    [AnnotationMouseDown 0 TypeSignature;
     MouseMove (clickAt 50 80) (Some surfaceAtOrigin);
     MouseUp].

(** One text annotation and two signatures. *)
Definition crowdedEditor : Editor :=
  placeSignature 10 10 (placeSignature 100 200 (placeText 50 80 loadedEditor)).

(** A document surface whose top-left corner is at (20, 50). *)
Definition surfaceOffset : DOMRect :=
  {| left := 20; top := 50; rect_width := 700; rect_height := 900 |}.

(** ** Page navigation and loading *)

Definition setNumPages (v : option Z) (s : Editor) : Editor :=
  {| numPages := v; pageNumber := pageNumber s; scale := scale s;
     pdfBytes := pdfBytes s; pdfUrl := pdfUrl s; activeTool := activeTool s;
     showSignatureCanvas := showSignatureCanvas s;
     textAnnotations := textAnnotations s;
     draggedAnnotation := draggedAnnotation s; draggedType := draggedType s;
     signatureAnnotations := signatureAnnotations s;
     newTextAnnotation := newTextAnnotation s;
     editingText := editingText s; editingPosition := editingPosition s;
     listenerDraggedType := listenerDraggedType s |}.

Definition setPageNumber (v : Z) (s : Editor) : Editor :=
  {| numPages := numPages s; pageNumber := v; scale := scale s;
     pdfBytes := pdfBytes s; pdfUrl := pdfUrl s; activeTool := activeTool s;
     showSignatureCanvas := showSignatureCanvas s;
     textAnnotations := textAnnotations s;
     draggedAnnotation := draggedAnnotation s; draggedType := draggedType s;
     signatureAnnotations := signatureAnnotations s;
     newTextAnnotation := newTextAnnotation s;
     editingText := editingText s; editingPosition := editingPosition s;
     listenerDraggedType := listenerDraggedType s |}.

Definition setPdfUrl (v : option string) (s : Editor) : Editor :=
  {| numPages := numPages s; pageNumber := pageNumber s; scale := scale s;
     pdfBytes := pdfBytes s; pdfUrl := v; activeTool := activeTool s;
     showSignatureCanvas := showSignatureCanvas s;
     textAnnotations := textAnnotations s;
     draggedAnnotation := draggedAnnotation s; draggedType := draggedType s;
     signatureAnnotations := signatureAnnotations s;
     newTextAnnotation := newTextAnnotation s;
     editingText := editingText s; editingPosition := editingPosition s;
     listenerDraggedType := listenerDraggedType s |}.

(** [onLoadSuccess] of the rendered document. *)
Definition onDocumentLoadSuccess (n : Z) (st : Editor) : Editor :=
  setNumPages (Some n) st.

(** [v || d] for an optional page count: [null] and [0] are falsy. *)
Definition count_or_default (v : option Z) (d : Z) : Z :=
  match v with
  | Some n => if (n =? 0)%Z then d else n
  | None => d
  end.

(** The [Previous] button:
    [setPageNumber(prev => Math.max(1, prev - 1))], disabled when
    [pageNumber <= 1]. *)
Definition handlePreviousPage (st : Editor) : Editor :=
  if (pageNumber st <=? 1)%Z then st
  else setPageNumber (Z.max 1 (pageNumber st - 1)) st.

(** The [Next] button:
    [setPageNumber(prev => Math.min(numPages || prev, prev + 1))], disabled
    when [numPages === null || pageNumber >= numPages]. *)
Definition handleNextPage (st : Editor) : Editor :=
  let disabled :=
    match numPages st with
    | None => true
    | Some n => (n <=? pageNumber st)%Z
    end in
  if disabled then st
  else setPageNumber
         (Z.min (count_or_default (numPages st) (pageNumber st))
            (pageNumber st + 1)) st.

(** The body of [loadPdf]: [arrayBuffer] is the outcome of
    [file.arrayBuffer()] ([None] when it rejects), [url] the blob URL that
    [URL.createObjectURL] returns.  The second component is the notice
    raised. *)
Definition loadPdf (arrayBuffer : option (list Byte.byte)) (url : string)
    (st : Editor) : Editor * list Toast :=
  match arrayBuffer with
  | Some bytes => (setPdfUrl (Some url) (setPdfBytes (Some bytes) st), [])
  | None =>
      (st, [ {| title := "Error";
                description := "Failed to load PDF file";
                variant := Some "destructive"%string |} ])
  end.

(** Everything that can happen to a mounted editor: the interactions of
    [Event] and, besides, page navigation and the two asynchronous
    completions. *)
Inductive Action :=
| Edit (ev : Event)
| PreviousPage
| NextPage
| DocumentLoadSuccess (n : Z)
| LoadPdf (arrayBuffer : option (list Byte.byte)) (url : string).

Definition act (st : Editor) (a : Action) : Editor :=
  match a with
  | Edit ev => step st ev
  | PreviousPage => handlePreviousPage st
  | NextPage => handleNextPage st
  | DocumentLoadSuccess n => onDocumentLoadSuccess n st
  | LoadPdf arrayBuffer url => fst (loadPdf arrayBuffer url st)
  end.

Definition perform (st : Editor) (actions : list Action) : Editor :=
  foldl act st actions.

(** The renderer reports [N] pages whenever it reports. *)
Definition reports (N : Z) (a : Action) : Prop :=
  match a with
  | DocumentLoadSuccess n => n = N
  | _ => True
  end.

(** The page shown and the page of every annotation lie in [1 .. N]. *)
Definition pagesWithin (N : Z) (st : Editor) : Prop :=
  (1 ≤ pageNumber st ≤ N)%Z
  ∧ (numPages st = None ∨ numPages st = Some N)
  ∧ Forall (λ a, 1 ≤ Text.pageNumber a ≤ N)%Z (textAnnotations st)
  ∧ Forall (λ a, 1 ≤ Signature.pageNumber a ≤ N)%Z (signatureAnnotations st).

(** Interactions that neither move nor resize: everything except
    pointer-moves and the four resize buttons. *)
Definition quiet (ev : Event) : Prop :=
  match ev with
  | MouseMove _ _ | FontSizeIncrease _ | FontSizeDecrease _
  | SignatureGrow _ | SignatureShrink _ => False
  | _ => True
  end.

(** Actions that commit, move or resize nothing and load nothing: tool
    selection, clicks, typing, cancelling, starting and ending a drag,
    zooming, page navigation and the page-count report. *)
Definition viewOnly (a : Action) : Prop :=
  match a with
  | Edit (SelectTool _) | Edit (PageClick _ _) | Edit (TextInput _)
  | Edit TextCancel | Edit SignatureCancel | Edit (AnnotationMouseDown _ _)
  | Edit MouseUp | Edit ZoomIn | Edit ZoomOut
  | PreviousPage | NextPage | DocumentLoadSuccess _ => True
  | _ => False
  end.

(** A completed read of the file. *)
Definition loads (a : Action) : Prop :=
  match a with
  | LoadPdf (Some _) _ => True
  | _ => False
  end.

(** A press of the [+] button of a signature. *)
Definition grows (a : Action) : Prop :=
  match a with
  | Edit (SignatureGrow _) => True
  | _ => False
  end.

(** The stored image is twice as wide as it is high. *)
Definition proportioned (a : Signature.t) : Prop :=
  Signature.width a == 2 * Signature.height a.

(** ** Rendered annotations

    The annotations of the page on display, in the order in which
    [.filter(...).map((annotation, index) => ...)] renders them; the
    handlers of the element at position [index] of this list are bound to
    that [index]. *)
Definition visibleTextAnnotations (st : Editor) : list Text.t :=
  filter (λ a, Text.pageNumber a = pageNumber st) (textAnnotations st).

Definition visibleSignatureAnnotations (st : Editor) : list Signature.t :=
  filter (λ a, Signature.pageNumber a = pageNumber st) (signatureAnnotations st).

(** ** The signature-capture widget *)

(** What the user does in the widget: start a stroke ([onBegin]), press
    [Clear], press [Save] ([pad] is the data URL of [sigCanvas.current], if
    the ref is set), press [Cancel]. *)
Inductive CanvasEvent :=
| StrokeBegin
| ClearClick
| SaveClick (pad : option string)
| CancelClick.

(** [handleSave] with [onSave] bound to [handleSignatureAdd]. *)
Definition handleSave (pad : option string) (isEmpty : bool)
    (pageElement : option Element) (st : Editor) : Editor :=
  match pad, isEmpty with
  | Some dataUrl, false => handleSignatureAdd dataUrl pageElement st
  | _, _ => st
  end.

(** One event on the widget; the state is the editor and the widget's
    [isEmpty]. *)
Definition canvasStep (pageElement : option Element) (s : Editor * bool)
    (ev : CanvasEvent) : Editor * bool :=
  match ev with
  | StrokeBegin => (fst s, false)
  | ClearClick => (fst s, true)
  | SaveClick pad => (handleSave pad (snd s) pageElement (fst s), snd s)
  | CancelClick => (handleSignatureCancel (fst s), snd s)
  end.

Definition drawing (ev : CanvasEvent) : Prop :=
  match ev with
  | StrokeBegin | ClearClick => True
  | _ => False
  end.

(** ** Uploader events *)

Definition handleDragOver (s : Shell) : Shell := setIsDragging true s.
Definition handleDragLeave (s : Shell) : Shell := setIsDragging false s.

(** The [Upload New File] button of [App]: the uploader is mounted anew,
    with its initial [isDragging]. *)
Definition handleUploadNewFile (s : Shell) : Shell :=
  {| selectedFile := None; isDragging := false; toasts := toasts s |}.

Inductive UploadEvent :=
| DragOver
| DragLeave
| Drop (files : list File)
| FileInputChange (files : list File)
| UploadNewFile.

Definition shellStep (s : Shell) (ev : UploadEvent) : Shell :=
  match ev with
  | DragOver => handleDragOver s
  | DragLeave => handleDragLeave s
  | Drop files => handleDrop files s
  | FileInputChange files => handleFileInputChange files s
  | UploadNewFile => handleUploadNewFile s
  end.

(** An upload attempt: a drop or a selection that carries at least one
    file. *)
Definition isAttempt (ev : UploadEvent) : bool :=
  match ev with
  | Drop (_ :: _) | FileInputChange (_ :: _) => true
  | _ => false
  end.

Definition attempts (events : list UploadEvent) : nat :=
  length (filter (λ ev, isAttempt ev = true) events).

(** ** A two-page session *)

Definition twoPageLoad (bytes : list Byte.byte) : option (list PageSize) :=
  Some [letterPage; letterPage].

(** The file loads, the renderer reports two pages, the user places a text
    on page 1, turns the page and places a signature on page 2. *)
Definition twoPageSession : list Action :=
  [ LoadPdf (Some []) "blob:1"; DocumentLoadSuccess 2;
    Edit (SelectTool ToolText);
    Edit (PageClick (clickAt 50 80) surfaceAtOrigin);
    Edit (TextInput sampleText); Edit TextSubmit;
    NextPage;
    Edit (SelectTool ToolSignature);
    Edit (PageClick (clickAt 100 200) surfaceAtOrigin);
    Edit (SignatureAdd "data:image/png;base64,AAAA" None) ].

Definition twoPageEditor : Editor := perform initialEditor twoPageSession.

(** The text and the signature of [twoPageEditor]. *)
Definition textOnPage1 : Text.t :=
  {| Text.x := 50; Text.y := 80; Text.text := sampleText;
     Text.pageNumber := 1; Text.fontSize := Some 11;
     Text.isResizing := None |}.

Definition signatureOnPage2 : Signature.t :=
  {| Signature.x := 612 / 2 / 1; Signature.y := 792 / 2 / 1;
     Signature.dataUrl := "data:image/png;base64,AAAA";
     Signature.width := 200; Signature.height := 100;
     Signature.pageNumber := 2; Signature.scale := None |}.

(** [twoPageEditor] after a second text has been placed on page 2, the
    page on display. *)
Definition twoTextsEditor : Editor :=
  perform twoPageEditor
    [ Edit (SelectTool ToolText);
      Edit (PageClick (clickAt 70 90) surfaceAtOrigin);
      Edit (TextInput sampleText); Edit TextSubmit ].

(** A text annotation whose text is the single character U+2713, which
    the sample font does not encode. *)
Definition checkMarkEditor : Editor :=
  run loadedEditor
    [SelectTool ToolText; PageClick (clickAt 50 80) surfaceAtOrigin;
     TextInput [10003%N]; TextSubmit].

(** * Properties *)

(** ** Updating one element of a collection *)

Section MapAt.
Context {A : Type} (f : A → A).

Lemma lookup_mapAt (index i : nat) (l : list A) :
  mapAt index f l !! i
  = (if bool_decide (i = index) then f else id) <$> l !! i.
Proof.
  unfold mapAt. rewrite list_lookup_imap.
  destruct (l !! i); simpl; [|reflexivity].
  case_bool_decide; reflexivity.
Qed.

Lemma lookup_mapAt_eq (index : nat) (l : list A) :
  mapAt index f l !! index = f <$> l !! index.
Proof. rewrite lookup_mapAt, bool_decide_eq_true_2; reflexivity. Qed.

Lemma lookup_mapAt_ne (index i : nat) (l : list A) :
  i ≠ index → mapAt index f l !! i = l !! i.
Proof.
  intros Hne. rewrite lookup_mapAt, bool_decide_eq_false_2 by assumption.
  destruct (l !! i); reflexivity.
Qed.


Lemma Forall_mapAt (P : A → Prop) (index : nat) (l : list A) :
  (∀ a, P a → P (f a)) → Forall P l → Forall P (mapAt index f l).
Proof.
  intros Hf Hl. apply Forall_lookup. intros i b Hb.
  rewrite lookup_mapAt in Hb.
  destruct (l !! i) as [a|] eqn:Ha; simpl in Hb; [|discriminate].
  pose proof (Forall_lookup_1 _ _ _ _ Hl Ha) as HPa.
  injection Hb as <-. case_bool_decide; auto.
Qed.

Lemma mapAt_out_of_range (index : nat) (l : list A) :
  (length l ≤ index)%nat → mapAt index f l = l.
Proof.
  intros Hle. apply list_eq. intros i.
  destruct (decide (i = index)) as [->|Hne].
  - rewrite lookup_mapAt_eq, (lookup_ge_None_2 l index) by assumption.
    reflexivity.
  - apply lookup_mapAt_ne; assumption.
Qed.
End MapAt.

(** ** Trimming *)

Lemma trimStart_nil (s : jsstring) : trimStart s = [] ↔ blank s.
Proof.
  unfold blank. induction s as [|c s IH]; simpl.
  - split; [constructor | reflexivity].
  - destruct (is_white_space c) eqn:Hc.
    + rewrite IH. split.
      * intros Hs. constructor; assumption.
      * intros Hs. inversion Hs; assumption.
    + split; [discriminate|].
      intros Hs. inversion Hs; congruence.
Qed.

Lemma trimStart_head (s : jsstring) :
  trimStart s = [] ∨ ∃ c rest, trimStart s = c :: rest ∧ is_white_space c = false.
Proof.
  induction s as [|c s IH]; simpl; [left; reflexivity|].
  destruct (is_white_space c) eqn:Hc; [exact IH|].
  right. exists c, s. split; [reflexivity | assumption].
Qed.

Lemma trim_nil (s : jsstring) : trim s = [] ↔ blank s.
Proof.
  unfold trim, trimEnd. split.
  - intros Ht. apply trimStart_nil.
    destruct (trimStart_head s) as [Hs | (c & rest & Hs & Hc)]; [assumption|].
    exfalso. rewrite Hs in Ht.
    assert (Hrev : trimStart (reverse (c :: rest)) = []).
    { apply (f_equal reverse) in Ht. rewrite reverse_involutive in Ht.
      exact Ht. }
    apply trimStart_nil in Hrev. unfold blank in Hrev.
    rewrite Forall_reverse in Hrev. inversion Hrev; congruence.
  - intros Hs. apply trimStart_nil in Hs. rewrite Hs. reflexivity.
Qed.

Lemma truthy_trim_false (s : jsstring) : truthy (trim s) = false ↔ blank s.
Proof.
  rewrite <- trim_nil. destruct (trim s); simpl; split; congruence.
Qed.

Lemma truthy_trim_true (s : jsstring) :
  truthy (trim s) = true ↔ Exists (λ c, is_white_space c = false) s.
Proof.
  split.
  - intros Ht. destruct (Exists_dec (λ c, is_white_space c = false) s) as [He|Hn];
      [assumption|].
    exfalso. assert (Hb : blank s).
    { unfold blank. apply Forall_forall. intros c Hin.
      destruct (is_white_space c) eqn:Hc; [reflexivity|].
      exfalso. apply Hn. apply Exists_exists. eauto. }
    apply truthy_trim_false in Hb. congruence.
  - intros He. destruct (truthy (trim s)) eqn:Ht; [reflexivity|].
    apply truthy_trim_false in Ht. unfold blank in Ht.
    apply Exists_exists in He as (c & Hin & Hc).
    rewrite Forall_forall in Ht. specialize (Ht c Hin). congruence.
Qed.

(** ** Submitting the text prompt *)

(** C10.  Submitting a string that is empty or all whitespace changes
    nothing at all (so the text annotations, the active tool and the
    pending position stay as they were); submitting a string with a
    non-whitespace character while the prompt is open (a pending position
    exists) appends one annotation whose text is the submitted string
    itself, untrimmed. *)
Theorem handleTextSubmit_blank_or_verbatim (st : Editor) :
  (blank (newTextAnnotation st) → handleTextSubmit st = st)
  ∧ (∀ p, Exists (λ c, is_white_space c = false) (newTextAnnotation st) →
          editingPosition st = Some p →
          textAnnotations (handleTextSubmit st)
          = textAnnotations st ++
              [ {| Text.x := pos_x p; Text.y := pos_y p;
                   Text.text := newTextAnnotation st;
                   Text.pageNumber := pageNumber st;
                   Text.fontSize := Some 11;
                   Text.isResizing := None |} ]).
Proof.
  split.
  - intros Hb. apply truthy_trim_false in Hb.
    unfold handleTextSubmit. rewrite Hb. reflexivity.
  - intros p He Hp. apply truthy_trim_true in He.
    unfold handleTextSubmit. rewrite He, Hp. reflexivity.
Qed.

(** ** Upload validation *)

(** C8.  A file whose MIME type is not [application/pdf] only adds the
    destructive "Invalid file type" notice: the selected file and every
    other field are as before, on both entry points (picker and drop; the
    drop handler clears its own hover flag first), and while no file is
    selected the page renderer is not run. *)
Theorem validateAndUploadFile_rejects (file : File) (s : Shell) :
  type file ≠ "application/pdf"%string →
  validateAndUploadFile file s
  = {| selectedFile := selectedFile s;
       isDragging := isDragging s;
       toasts := toasts s ++
                 [ {| title := "Invalid file type";
                      description := "Please upload a PDF file";
                      variant := Some "destructive"%string |} ] |}
  ∧ (∀ rest, selectedFile (handleFileInputChange (file :: rest) s)
             = selectedFile s)
  ∧ (∀ rest, selectedFile (handleDrop (file :: rest) s) = selectedFile s)
  ∧ (selectedFile s = None →
     App (validateAndUploadFile file s) = UploaderView
     ∧ ∀ st, rendersPage (validateAndUploadFile file s) st = false).
Proof.
  intros Htype.
  assert (Hv : validateAndUploadFile file s
               = toast {| title := "Invalid file type";
                          description := "Please upload a PDF file";
                          variant := Some "destructive"%string |} s).
  { unfold validateAndUploadFile.
    destruct (String.eqb_spec (type file) "application/pdf"); [contradiction|].
    reflexivity. }
  split; [exact Hv|]. split; [|split].
  - intros rest. simpl. rewrite Hv. reflexivity.
  - intros rest. unfold handleDrop, validateAndUploadFile.
    simpl.
    destruct (String.eqb_spec (type file) "application/pdf"); [contradiction|].
    reflexivity.
  - intros Hnone. rewrite Hv. unfold rendersPage, App. simpl.
    rewrite Hnone. split; [reflexivity|]. intros st. reflexivity.
Qed.

(** ** Signature placement *)

(** C2, as the code has it.  A click with the signature tool active stores
    the centre of the clicked page surface, whatever the pointer
    coordinates, and saving the signature commits it there; without a
    pending position the fallback is the centre of the page element, or
    (300, 400) when there is none. *)
Theorem signature_placed_at_page_centre (st : Editor) (e : MouseEvent)
    (rect : DOMRect) (signatureDataUrl : string) (el : option Element) :
  activeTool st = ToolSignature →
  signatureAnnotations
    (handleSignatureAdd signatureDataUrl el (handlePageClick e rect st))
  = signatureAnnotations st ++
      [ {| Signature.x := rect_width rect / 2 / scale st;
           Signature.y := rect_height rect / 2 / scale st;
           Signature.dataUrl := signatureDataUrl;
           Signature.width := 200;
           Signature.height := 100;
           Signature.pageNumber := pageNumber st;
           Signature.scale := None |} ]
  ∧ (editingPosition st = None →
     signatureAnnotations (handleSignatureAdd signatureDataUrl el st)
     = signatureAnnotations st ++
         [ {| Signature.x :=
                match el with
                | Some page => clientWidth page / 2 / scale st
                | None => 300
                end;
              Signature.y :=
                match el with
                | Some page => clientHeight page / 2 / scale st
                | None => 400
                end;
              Signature.dataUrl := signatureDataUrl;
              Signature.width := 200;
              Signature.height := 100;
              Signature.pageNumber := pageNumber st;
              Signature.scale := None |} ]).
Proof.
  intros Htool. split.
  - unfold handlePageClick. rewrite Htool. reflexivity.
  - intros Hpos. unfold handleSignatureAdd. rewrite Hpos.
    destruct el; reflexivity.
Qed.

(** ** Export *)

Lemma getPage_Some (pages : list PageSize) (pageNumber : Z) (page : PageSize) :
  (1 ≤ pageNumber)%Z →
  pages !! Z.to_nat (pageNumber - 1) = Some page →
  getPage pages pageNumber = Some (Z.to_nat (pageNumber - 1), page).
Proof.
  intros Hpos Hpage. unfold getPage.
  destruct (Z.ltb_spec (pageNumber - 1) 0) as [Hlt|_]; [lia|].
  rewrite Hpage. reflexivity.
Qed.

Section ExportFacts.
Variable load : list Byte.byte → option (list PageSize).
Variable encodes : jsstring → bool.
Variable embedPng : string → option PDFImage.
Variable save : list PageSize → list DrawInstruction → option (list Byte.byte).

(** A completed download carries one instruction per annotation: the
    text annotations in store order, then the signatures in store order. *)
Lemma handleDownload_instructions (file : File) (st : Editor)
    (instructions : list DrawInstruction) (out : list Byte.byte)
    (download : string) (notice : Toast) :
  handleDownload load encodes embedPng save file st
  = Downloaded instructions out download notice →
  ∃ bytes pages texts signatures,
    pdfBytes st = Some bytes
    ∧ load bytes = Some pages
    ∧ Forall2 (λ a i, exportText encodes pages a = Some i)
        (textAnnotations st) texts
    ∧ Forall2 (λ a i, exportSignature embedPng pages a = Some i)
        (signatureAnnotations st) signatures
    ∧ instructions = texts ++ signatures.
Proof.
  unfold handleDownload, exportDocument. intros H.
  destruct (pdfBytes st) as [bytes|] eqn:Hb; [|discriminate].
  destruct (load bytes) as [pages|] eqn:Hl; simpl in H; [|discriminate].
  destruct (mapM (exportText encodes pages) (textAnnotations st))
    as [texts|] eqn:Ht; simpl in H; [|discriminate].
  destruct (mapM (exportSignature embedPng pages) (signatureAnnotations st))
    as [signatures|] eqn:Hs; simpl in H; [|discriminate].
  destruct (save pages (texts ++ signatures)); simpl in H; [|discriminate].
  injection H as <- _ _ _.
  exists bytes, pages, texts, signatures.
  apply mapM_Some in Ht. apply mapM_Some in Hs.
  repeat split; assumption || reflexivity.
Qed.

(** The download completes whenever every annotation sits on a page of
    the document, the font encodes every text, and the library accepts the
    images and the result. *)
Lemma handleDownload_completes (file : File) (st : Editor)
    (bytes : list Byte.byte) (pages : list PageSize) :
  pdfBytes st = Some bytes →
  load bytes = Some pages →
  Forall (λ a, is_Some (getPage pages (Text.pageNumber a))
               ∧ encodes (Text.text a) = true)
    (textAnnotations st) →
  Forall (λ a, is_Some (getPage pages (Signature.pageNumber a))
               ∧ is_Some (embedPng (Signature.dataUrl a)))
    (signatureAnnotations st) →
  (∀ instructions, is_Some (save pages instructions)) →
  ∃ instructions out,
    handleDownload load encodes embedPng save file st
    = Downloaded instructions out (String.append "edited_" (name file))
        {| title := "Success";
           description := "PDF downloaded with your edits";
           variant := None |}.
Proof.
  intros Hbytes Hload Ht Hs Hsave.
  unfold handleDownload, exportDocument. rewrite Hbytes, Hload. simpl.
  assert (Htexts : is_Some (mapM (exportText encodes pages)
                              (textAnnotations st))).
  { apply mapM_is_Some. eapply Forall_impl; [exact Ht|].
    intros a [[[i page] Hp] Henc]. unfold compose, exportText.
    rewrite Hp. simpl. rewrite Henc. eauto. }
  assert (Hsigs : is_Some (mapM (exportSignature embedPng pages)
                             (signatureAnnotations st))).
  { apply mapM_is_Some. eapply Forall_impl; [exact Hs|].
    intros a [[[i page] Hp] [img Himg]]. unfold compose, exportSignature.
    rewrite Hp. simpl. rewrite Himg. simpl. eauto. }
  destruct Htexts as [texts ->]. destruct Hsigs as [signatures ->]. simpl.
  destruct (Hsave (texts ++ signatures)) as [out ->]. simpl. eauto.
Qed.

Lemma getPage_within (pages : list PageSize) (pageNumber : Z) :
  (1 ≤ pageNumber ≤ Z.of_nat (length pages))%Z →
  is_Some (getPage pages pageNumber).
Proof.
  intros [Hlo Hhi].
  destruct (lookup_lt_is_Some_2 pages (Z.to_nat (pageNumber - 1))) as [page Hp];
    [lia|].
  rewrite (getPage_Some _ _ _ Hlo Hp). eauto.
Qed.

(** The same, with the pages given as a range. *)
Lemma handleDownload_completes_in_range (file : File) (st : Editor)
    (bytes : list Byte.byte) (pages : list PageSize) :
  pdfBytes st = Some bytes →
  load bytes = Some pages →
  Forall (λ b, (1 ≤ Text.pageNumber b ≤ Z.of_nat (length pages))%Z
               ∧ encodes (Text.text b) = true)
    (textAnnotations st) →
  Forall (λ b, (1 ≤ Signature.pageNumber b ≤ Z.of_nat (length pages))%Z
               ∧ is_Some (embedPng (Signature.dataUrl b)))
    (signatureAnnotations st) →
  (∀ instructions, is_Some (save pages instructions)) →
  ∃ instructions out,
    handleDownload load encodes embedPng save file st
    = Downloaded instructions out (String.append "edited_" (name file))
        {| title := "Success";
           description := "PDF downloaded with your edits";
           variant := None |}.
Proof.
  intros Hbytes Hload Ht Hs Hsave.
  apply (handleDownload_completes file st bytes pages Hbytes Hload);
    [| |exact Hsave].
  - eapply Forall_impl; [exact Ht|]. intros b [Hb Henc].
    split; [apply getPage_within; exact Hb | exact Henc].
  - eapply Forall_impl; [exact Hs|]. intros b [Hb Himg].
    split; [apply getPage_within; exact Hb | exact Himg].
Qed.

(** Whatever font size an annotation stores, the instruction issued for it
    asks for size 11, black, Helvetica, opacity 0.95. *)
Lemma exportText_styling (pages : list PageSize) (a : Text.t)
    (instruction : DrawInstruction) :
  exportText encodes pages a = Some instruction →
  ∃ i options,
    instruction = DrawText i (Text.text a) options
    ∧ text_size options = 11
    ∧ text_color options = rgb 0 0 0
    ∧ text_font options = "Helvetica"%string
    ∧ text_opacity options = 0.95.
Proof.
  unfold exportText. intros H.
  destruct (getPage pages (Text.pageNumber a)) as [[i page]|]; simpl in H;
    [|discriminate].
  destruct (encodes (Text.text a)); [|discriminate].
  injection H as <-. eexists _, _. split; [reflexivity|]. simpl. auto.
Qed.

(** C4.  A text annotation stored at (x, y) on a page of natural height H
    is drawn at (x, H - y): when every annotation sits on a page of the
    loaded document, the font encodes every text and the library embeds
    the images and saves, the download completes and the instruction at
    the annotation's position is a [drawText] of its text at (x, H - y) on
    its page. *)
Theorem export_text_anchor (file : File) (st : Editor)
    (bytes : list Byte.byte) (pages : list PageSize) (k : nat) (a : Text.t)
    (page : PageSize) (x y H : Q) :
  pdfBytes st = Some bytes →
  load bytes = Some pages →
  textAnnotations st !! k = Some a →
  Text.x a = x → Text.y a = y →
  (1 ≤ Text.pageNumber a)%Z →
  pages !! Z.to_nat (Text.pageNumber a - 1) = Some page →
  page_height page = H →
  Forall (λ b, (1 ≤ Text.pageNumber b ≤ Z.of_nat (length pages))%Z
               ∧ encodes (Text.text b) = true)
    (textAnnotations st) →
  Forall (λ b, (1 ≤ Signature.pageNumber b ≤ Z.of_nat (length pages))%Z
               ∧ is_Some (embedPng (Signature.dataUrl b)))
    (signatureAnnotations st) →
  (∀ instructions, is_Some (save pages instructions)) →
  ∃ instructions out options,
    handleDownload load encodes embedPng save file st
    = Downloaded instructions out (String.append "edited_" (name file))
        {| title := "Success";
           description := "PDF downloaded with your edits";
           variant := None |}
    ∧ instructions !! k
      = Some (DrawText (Z.to_nat (Text.pageNumber a - 1)) (Text.text a) options)
    ∧ text_x options = x
    ∧ text_y options = H - y.
Proof.
  intros Hbytes Hload Hk Hx Hy Hpos Hpage HH Htexts Hsigs Hsave.
  destruct (handleDownload_completes_in_range file st bytes pages
              Hbytes Hload Htexts Hsigs Hsave) as (instructions & out & Hd).
  exists instructions, out.
  pose proof Hd as Hshape.
  apply handleDownload_instructions in Hshape
    as (bytes' & pages' & texts & signatures & Hb' & Hl' & Ht & _ & ->).
  rewrite Hbytes in Hb'. injection Hb' as <-.
  rewrite Hload in Hl'. injection Hl' as <-.
  destruct (Forall2_lookup_l _ _ _ _ _ Ht Hk) as (i & Hi & Hai).
  unfold exportText in Hai.
  rewrite (getPage_Some _ _ _ Hpos Hpage) in Hai. simpl in Hai.
  destruct (encodes (Text.text a)); [|discriminate].
  injection Hai as <-.
  eexists. split; [exact Hd|]. split; [apply lookup_app_l_Some, Hi|].
  simpl. rewrite Hx, Hy, HH. split; reflexivity.
Qed.

(** C5.  A signature stored at (x, y) with height h on a page of natural
    height H is drawn at (x, H - y - h) with its stored width and height:
    when every annotation sits on a page of the loaded document, the font
    encodes every text and the library embeds the images and saves, the
    download completes and the instruction at the signature's position,
    after the text instructions, is a [drawImage] of its image at
    (x, H - y - h) on its page. *)
Theorem export_signature_anchor (file : File) (st : Editor)
    (bytes : list Byte.byte) (pages : list PageSize) (k : nat)
    (a : Signature.t) (page : PageSize) (img : PDFImage) (x y h H : Q) :
  pdfBytes st = Some bytes →
  load bytes = Some pages →
  signatureAnnotations st !! k = Some a →
  Signature.x a = x → Signature.y a = y → Signature.height a = h →
  (1 ≤ Signature.pageNumber a)%Z →
  pages !! Z.to_nat (Signature.pageNumber a - 1) = Some page →
  page_height page = H →
  embedPng (Signature.dataUrl a) = Some img →
  Forall (λ b, (1 ≤ Text.pageNumber b ≤ Z.of_nat (length pages))%Z
               ∧ encodes (Text.text b) = true)
    (textAnnotations st) →
  Forall (λ b, (1 ≤ Signature.pageNumber b ≤ Z.of_nat (length pages))%Z
               ∧ is_Some (embedPng (Signature.dataUrl b)))
    (signatureAnnotations st) →
  (∀ instructions, is_Some (save pages instructions)) →
  ∃ instructions out,
    handleDownload load encodes embedPng save file st
    = Downloaded instructions out (String.append "edited_" (name file))
        {| title := "Success";
           description := "PDF downloaded with your edits";
           variant := None |}
    ∧ instructions !! (length (textAnnotations st) + k)%nat
      = Some (DrawImage (Z.to_nat (Signature.pageNumber a - 1)) img
                {| image_x := x; image_y := H - y - h;
                   image_width := Signature.width a; image_height := h |}).
Proof.
  intros Hbytes Hload Hk Hx Hy Hh Hpos Hpage HH Himg Htexts Hsigs Hsave.
  destruct (handleDownload_completes_in_range file st bytes pages
              Hbytes Hload Htexts Hsigs Hsave) as (instructions & out & Hd).
  exists instructions, out. split; [exact Hd|].
  apply handleDownload_instructions in Hd
    as (bytes' & pages' & texts & signatures & Hb' & Hl' & Ht & Hs & ->).
  rewrite Hbytes in Hb'. injection Hb' as <-.
  rewrite Hload in Hl'. injection Hl' as <-.
  destruct (Forall2_lookup_l _ _ _ _ _ Hs Hk) as (i & Hi & Hai).
  unfold exportSignature in Hai.
  rewrite (getPage_Some _ _ _ Hpos Hpage) in Hai. simpl in Hai.
  rewrite Himg in Hai. simpl in Hai. injection Hai as <-.
  rewrite (Forall2_length _ _ _ Ht).
  rewrite lookup_app_r by lia.
  replace (length texts + k - length texts)%nat with k by lia.
  rewrite Hi, Hx, Hy, Hh, HH. reflexivity.
Qed.

End ExportFacts.

(** ** Font-size buttons *)

Lemma or_default_floor (v : Q) : 8 <= v → or_default (Some v) 11 = v.
Proof.
  intros Hv. unfold or_default.
  destruct (Qeq_bool v 0) eqn:E; [|reflexivity].
  apply Qeq_bool_eq in E. lra.
Qed.

Lemma Math_max_floor (lo v : Q) : lo <= Math_max lo v.
Proof. apply Q.le_max_l. Qed.

Lemma Math_max_at_floor (lo v : Q) : v <= lo → Math_max lo v == lo.
Proof. intros Hv. apply Q.max_l. exact Hv. Qed.

Lemma fontFloor_increase (a : Text.t) :
  fontFloor a →
  fontFloor (Text.withFontSize (or_default (Text.fontSize a) 11 + 1) a).
Proof.
  intros (v & Hv & Hle). rewrite Hv, or_default_floor by assumption.
  exists (v + 1). split; [reflexivity | lra].
Qed.

Lemma fontFloor_decrease (a : Text.t) :
  fontFloor (Text.withFontSize
               (Math_max 8 (or_default (Text.fontSize a) 11 - 1)) a).
Proof. eexists. split; [reflexivity | apply Math_max_floor]. Qed.

Lemma pressFont_floor (st : Editor) (press : FontButton * nat) :
  Forall fontFloor (textAnnotations st) →
  Forall fontFloor (textAnnotations (pressFont st press)).
Proof.
  intros Hst. destruct press as [[|] index]; simpl; apply Forall_mapAt;
    auto using fontFloor_increase, fontFloor_decrease.
Qed.

Lemma presses_floor (presses : list (FontButton * nat)) (st : Editor) :
  Forall fontFloor (textAnnotations st) →
  Forall fontFloor (textAnnotations (foldl pressFont st presses)).
Proof.
  revert st. induction presses as [|press presses IH]; intros st Hst; simpl.
  - exact Hst.
  - apply IH, pressFont_floor, Hst.
Qed.

Lemma increases_add (index n : nat) (st : Editor) (a : Text.t) (v : Q) :
  textAnnotations st !! index = Some a →
  Text.fontSize a = Some v → 8 <= v →
  ∃ a' v',
    textAnnotations (Nat.iter n (handleFontSizeIncrease index) st) !! index
    = Some a'
    ∧ Text.fontSize a' = Some v'
    ∧ v' == v + inject_Z (Z.of_nat n).
Proof.
  intros Ha Hv Hle. induction n as [|n (a' & v' & Ha' & Hv' & Heq)].
  - exists a, v. simpl. repeat split; try assumption.
    change (inject_Z (Z.of_nat 0)) with 0. lra.
  - assert (Hle' : 8 <= v').
    { rewrite Heq. pose proof (Zle_0_nat n) as Hn.
      apply (Qle_trans _ (v + 0)); [lra|].
      apply Qplus_le_r. change 0 with (inject_Z 0).
      rewrite <- Zle_Qle. exact Hn. }
    change (Nat.iter (S n) (handleFontSizeIncrease index) st)
      with (handleFontSizeIncrease index
              (Nat.iter n (handleFontSizeIncrease index) st)).
    set (s := Nat.iter n (handleFontSizeIncrease index) st) in *.
    unfold handleFontSizeIncrease.
    change (textAnnotations (setTextAnnotations ?l _)) with l.
    rewrite lookup_mapAt_eq, Ha'. simpl.
    eexists _, _. split; [reflexivity|]. split; [reflexivity|].
    rewrite Hv', or_default_floor by assumption.
    rewrite Heq, Nat2Z.inj_succ. unfold Z.succ.
    rewrite inject_Z_plus. change (inject_Z 1) with 1. ring.
Qed.

Lemma pressFont_floor_at (index : nat) (st : Editor) (press : FontButton * nat) :
  (∃ a, textAnnotations st !! index = Some a ∧ fontFloor a) →
  ∃ a, textAnnotations (pressFont st press) !! index = Some a ∧ fontFloor a.
Proof.
  intros (a & Ha & Hfloor). destruct press as [[|] target]; simpl;
    rewrite lookup_mapAt, Ha; simpl; case_bool_decide; eexists;
    (split; [reflexivity|]);
    auto using fontFloor_increase, fontFloor_decrease.
Qed.

Lemma presses_floor_at (index : nat) (presses : list (FontButton * nat))
    (st : Editor) :
  (∃ a, textAnnotations st !! index = Some a ∧ fontFloor a) →
  ∃ a, textAnnotations (foldl pressFont st presses) !! index = Some a
       ∧ fontFloor a.
Proof.
  revert st. induction presses as [|press presses IH]; intros st Hst; simpl.
  - exact Hst.
  - apply IH, pressFont_floor_at, Hst.
Qed.

(** C6.  A text annotation whose font size is 11 never gets a stored font
    size below 8, whatever sequence of [+] and [-] presses is applied to
    it or to the other annotations; a [-] on an annotation of size 8
    leaves it at 8; and n presses of [+] take it to 11 + n, for every n. *)
Theorem font_size_floor (st : Editor) (index : nat) (a : Text.t)
    (presses : list (FontButton * nat)) :
  textAnnotations st !! index = Some a →
  Text.fontSize a = Some 11 →
  (∃ a' v,
     textAnnotations (foldl pressFont st presses) !! index = Some a'
     ∧ Text.fontSize a' = Some v ∧ 8 <= v)
  ∧ (∀ st' b v,
       textAnnotations st' !! index = Some b →
       Text.fontSize b = Some v → v == 8 →
       ∃ b' v',
         textAnnotations (handleFontSizeDecrease index st') !! index = Some b'
         ∧ Text.fontSize b' = Some v' ∧ v' == 8)
  ∧ (∀ n,
       ∃ a' v',
         textAnnotations (Nat.iter n (handleFontSizeIncrease index) st) !! index
         = Some a'
         ∧ Text.fontSize a' = Some v'
         ∧ v' == 11 + inject_Z (Z.of_nat n)).
Proof.
  intros Ha Hsize. split; [|split].
  - destruct (presses_floor_at index presses st) as (a' & Ha' & v & Hv & Hle).
    { exists a. split; [exact Ha|]. exists 11. split; [exact Hsize | lra]. }
    exists a', v. repeat split; assumption.
  - intros st' b v Hb Hv Heq.
    unfold handleFontSizeDecrease. simpl. rewrite lookup_mapAt_eq, Hb. simpl.
    eexists _, _. split; [reflexivity|]. split; [reflexivity|].
    rewrite Hv, or_default_floor by lra.
    apply Math_max_at_floor. lra.
  - intros n. apply (increases_add index n st a 11 Ha Hsize). lra.
Qed.

(** ** Signature resize buttons *)

Lemma sizeFloor_shrink (a : Signature.t) :
  sizeFloor (Signature.withSize (Math_max 50 (Signature.width a * 0.9))
               (Math_max 25 (Signature.height a * 0.9)) a).
Proof. split; apply Math_max_floor. Qed.

Lemma sizeFloor_grow (a : Signature.t) :
  sizeFloor a →
  sizeFloor (Signature.withSize (Signature.width a * 1.1)
               (Signature.height a * 1.1) a).
Proof. intros [Hw Hh]. split; simpl; lra. Qed.

Lemma shrinks_floor (shrinks : list nat) (st : Editor) :
  Forall sizeFloor (signatureAnnotations st) →
  Forall sizeFloor (signatureAnnotations (foldl pressShrink st shrinks)).
Proof.
  revert st. induction shrinks as [|index shrinks IH]; intros st Hst; simpl.
  - exact Hst.
  - apply IH. unfold pressShrink, handleSignatureShrink. simpl.
    apply Forall_mapAt; [|exact Hst]. intros a _. apply sizeFloor_shrink.
Qed.

Lemma shrinks_floor_at (index : nat) (shrinks : list nat) (st : Editor) :
  (∃ a, signatureAnnotations st !! index = Some a ∧ sizeFloor a) →
  ∃ a, signatureAnnotations (foldl pressShrink st shrinks) !! index = Some a
       ∧ sizeFloor a.
Proof.
  revert st. induction shrinks as [|target shrinks IH]; intros st Hst; simpl.
  - exact Hst.
  - apply IH. destruct Hst as (a & Ha & Hfloor).
    unfold pressShrink, handleSignatureShrink. simpl.
    rewrite lookup_mapAt, Ha. simpl. case_bool_decide; eexists;
      (split; [reflexivity|]); [apply sizeFloor_shrink | exact Hfloor].
Qed.

(** C7.  A signature that measures 200 by 100 never gets a stored width
    below 50 or a stored height below 25, whatever sequence of presses of
    the shrink button is applied to it or to the other signatures. *)
Theorem signature_size_floor (st : Editor) (index : nat) (a : Signature.t)
    (shrinks : list nat) :
  signatureAnnotations st !! index = Some a →
  Signature.width a = 200 → Signature.height a = 100 →
  ∃ a',
    signatureAnnotations (foldl pressShrink st shrinks) !! index = Some a'
    ∧ 50 <= Signature.width a' ∧ 25 <= Signature.height a'.
Proof.
  intros Ha Hw Hh.
  destruct (shrinks_floor_at index shrinks st) as (a' & Ha' & Hfloor).
  { exists a. split; [exact Ha|]. split; [rewrite Hw | rewrite Hh]; lra. }
  exists a'. split; [exact Ha' | exact Hfloor].
Qed.

(** ** Dragging *)

Section MapAtTwice.
Context {A : Type}.

Lemma mapAt_ext (f g : A → A) (index : nat) (l : list A) :
  (∀ a, f a = g a) → mapAt index f l = mapAt index g l.
Proof.
  intros Hfg. apply list_eq. intros i. rewrite !lookup_mapAt.
  destruct (l !! i); simpl; [|reflexivity].
  case_bool_decide; [rewrite Hfg|]; reflexivity.
Qed.

Lemma mapAt_mapAt (f g : A → A) (index : nat) (l : list A) :
  mapAt index f (mapAt index g l) = mapAt index (λ a, f (g a)) l.
Proof.
  apply list_eq. intros i. rewrite !lookup_mapAt.
  destruct (l !! i); simpl; [|reflexivity].
  case_bool_decide; reflexivity.
Qed.
End MapAtTwice.

(** The effect only ever replaces the listener. *)
Lemma dragEffect_listener (prev next : Editor) :
  ∃ L, dragEffect prev next = setListenerDraggedType L next.
Proof.
  unfold dragEffect. case_match; [|eauto].
  exists (listenerDraggedType next). destruct next; reflexivity.
Qed.

(** A pointer-down that changes [draggedAnnotation] re-runs the effect, so
    the listener gets the new kind. *)
Lemma handleAnnotationMouseDown_listener (index : nat) (type : AnnotationType)
    (st : Editor) :
  draggedAnnotation st ≠ Some index →
  listenerDraggedType (handleAnnotationMouseDown index type st) = type.
Proof.
  intros Hopen. unfold handleAnnotationMouseDown, dragEffect. simpl.
  rewrite bool_decide_eq_false_2 by exact Hopen. reflexivity.
Qed.

(** A pointer-down on the index of a session that is still open does not:
    the listener keeps the kind it had. *)
Lemma handleAnnotationMouseDown_stale (index : nat) (type : AnnotationType)
    (st : Editor) :
  draggedAnnotation st = Some index →
  listenerDraggedType (handleAnnotationMouseDown index type st)
  = listenerDraggedType st
  ∧ draggedType (handleAnnotationMouseDown index type st) = type.
Proof.
  intros Hopen. unfold handleAnnotationMouseDown, dragEffect. simpl.
  rewrite bool_decide_eq_true_2 by exact Hopen.
  assert (Hq : Qeq_bool (scale st) (scale st) = true)
    by (apply Qeq_bool_iff; reflexivity).
  rewrite Hq. split; reflexivity.
Qed.

(** While the session is open only the collection of the listener's kind
    changes, and each move overwrites the position written by the one
    before. *)
Lemma dragging_state (index : nat) (type : AnnotationType)
    (moves : list (MouseEvent * DOMRect)) (st : Editor) :
  let d := dragging index type moves st in
  let L := listenerDraggedType (handleAnnotationMouseDown index type st) in
  draggedAnnotation d = Some index
  ∧ listenerDraggedType d = L
  ∧ scale d = scale st
  ∧ match L with
    | TypeText =>
        signatureAnnotations d = signatureAnnotations st
        ∧ ∀ nx ny,
            mapAt index (Text.moveTo nx ny) (textAnnotations d)
            = mapAt index (Text.moveTo nx ny) (textAnnotations st)
    | TypeSignature =>
        textAnnotations d = textAnnotations st
        ∧ ∀ nx ny,
            mapAt index (Signature.moveTo nx ny) (signatureAnnotations d)
            = mapAt index (Signature.moveTo nx ny) (signatureAnnotations st)
    end.
Proof.
  unfold dragging. induction moves as [|[e rect] moves IH] using rev_ind.
  - simpl. unfold handleAnnotationMouseDown.
    destruct (dragEffect_listener st
                (setDraggedType type (setDraggedAnnotation (Some index) st)))
      as [L ->].
    simpl. destruct L; repeat split; reflexivity.
  - rewrite foldl_snoc. simpl in *.
    set (d := foldl _ _ moves) in *.
    set (L := listenerDraggedType (handleAnnotationMouseDown index type st))
      in *.
    destruct IH as (Hidx & Hlistener & Hscale & Hlists).
    unfold handleMouseMove. rewrite Hidx, Hlistener. simpl.
    destruct L; simpl; destruct Hlists as [Hother Hsame];
      (repeat split; try assumption; []);
      intros nx ny; rewrite mapAt_mapAt;
      rewrite <- (Hsame nx ny); apply mapAt_ext; reflexivity.
Qed.

Lemma dragging_last (index : nat) (type : AnnotationType)
    (moves : list (MouseEvent * DOMRect)) (e : MouseEvent) (rect : DOMRect)
    (st : Editor) :
  let d := dragging index type (moves ++ [(e, rect)]) st in
  let nx := (clientX e - left rect) / scale st in
  let ny := (clientY e - top rect) / scale st in
  match listenerDraggedType (handleAnnotationMouseDown index type st) with
  | TypeText =>
      textAnnotations d = mapAt index (Text.moveTo nx ny) (textAnnotations st)
      ∧ signatureAnnotations d = signatureAnnotations st
  | TypeSignature =>
      signatureAnnotations d
      = mapAt index (Signature.moveTo nx ny) (signatureAnnotations st)
      ∧ textAnnotations d = textAnnotations st
  end.
Proof.
  pose proof (dragging_state index type moves st) as Hd.
  unfold dragging in *. rewrite foldl_snoc. simpl in *.
  set (d := foldl _ _ moves) in *.
  set (L := listenerDraggedType (handleAnnotationMouseDown index type st))
    in *.
  destruct Hd as (Hidx & Hlistener & Hscale & Hlists).
  unfold handleMouseMove. rewrite Hidx, Hlistener, Hscale. simpl.
  destruct L; simpl; destruct Hlists as [Hother Hsame];
    (split; [apply Hsame | exact Hother]).
Qed.

Lemma handleMouseUp_fields (st : Editor) :
  textAnnotations (handleMouseUp st) = textAnnotations st
  ∧ signatureAnnotations (handleMouseUp st) = signatureAnnotations st
  ∧ draggedAnnotation (handleMouseUp st) = None.
Proof.
  unfold handleMouseUp.
  destruct (dragEffect_listener st (setDraggedAnnotation None st)) as [L ->].
  repeat split; reflexivity.
Qed.


(** When a session is still open on the same index with the listener of
    the other kind (its pointer-up was never delivered), a pointer-down
    on a signature leaves the old listener in place: the pointer-moves
    then move the text annotation at that index, not the signature. *)
Lemma second_pointer_down_moves_the_other_kind (st : Editor) (index : nat)
    (moves : list (MouseEvent * DOMRect)) (e : MouseEvent) (rect : DOMRect) :
  draggedAnnotation st = Some index →
  listenerDraggedType st = TypeText →
  let d := dragging index TypeSignature (moves ++ [(e, rect)]) st in
  draggedType d = TypeSignature
  ∧ signatureAnnotations d = signatureAnnotations st
  ∧ textAnnotations d
    = mapAt index
        (Text.moveTo ((clientX e - left rect) / scale st)
           ((clientY e - top rect) / scale st))
        (textAnnotations st).
Proof.
  intros Hopen Hlistener d.
  pose proof (dragging_last index TypeSignature moves e rect st) as Hlast.
  destruct (handleAnnotationMouseDown_stale index TypeSignature st Hopen)
    as [Hstale Htype].
  rewrite Hstale, Hlistener in Hlast. fold d in Hlast. simpl in Hlast.
  destruct Hlast as [Ht Hs]. split; [|split; assumption].
  subst d. unfold dragging.
  assert (Hgen : ∀ ms s, draggedType s = TypeSignature →
                 draggedType (foldl (λ s m, handleMouseMove (fst m)
                                              (Some (snd m)) s) s ms)
                 = TypeSignature).
  { induction ms as [|m ms IH]; intros s Hs'; simpl; [exact Hs'|].
    apply IH. unfold handleMouseMove. repeat case_match; simpl; exact Hs'. }
  apply Hgen, Htype.
Qed.

(** ** Reachable states *)

(** Replaces every [dragEffect prev next] by [next] with some listener. *)
Ltac effect_fields :=
  repeat match goal with
         | |- context [dragEffect ?prev ?next] =>
             let L := fresh "L" in
             destruct (dragEffect_listener prev next) as [L ->]
         end;
  simpl.

Lemma handleZoomOut_range (st : Editor) :
  0.5 <= scale st <= 2.0 → 0.5 <= scale (handleZoomOut st) <= 2.0.
Proof.
  intros [Hlo Hhi]. unfold handleZoomOut.
  destruct (Qle_bool (scale st) 0.5); [split; assumption|]. effect_fields.
  split; [apply Math_max_floor|].
  unfold Math_max. apply Q.max_lub; lra.
Qed.

Lemma handleZoomIn_range (st : Editor) :
  0.5 <= scale st <= 2.0 → 0.5 <= scale (handleZoomIn st) <= 2.0.
Proof.
  intros [Hlo Hhi]. unfold handleZoomIn.
  destruct (Qle_bool 2.0 (scale st)); [split; assumption|]. effect_fields.
  split; [|apply Q.le_min_l].
  unfold Math_min. apply Q.min_glb; lra.
Qed.

Lemma step_bounded (st : Editor) (ev : Event) :
  bounded st → bounded (step st ev).
Proof.
  intros (Hscale & Htexts & Hsigs). destruct ev; simpl.
  - repeat split; assumption || apply Hscale.
  - unfold handlePageClick. destruct (activeTool st);
      repeat split; assumption || apply Hscale.
  - repeat split; assumption || apply Hscale.
  - unfold handleTextSubmit.
    destruct (truthy _), (editingPosition st);
      try (repeat split; assumption || apply Hscale).
    split; [exact Hscale|]. split; [|exact Hsigs]. simpl.
    apply Forall_app. split; [exact Htexts|].
    constructor; [|constructor]. exists 11. split; [reflexivity | lra].
  - repeat split; assumption || apply Hscale.
  - split; [exact Hscale|]. split; [exact Htexts|]. simpl.
    apply Forall_app. split; [exact Hsigs|].
    constructor; [|constructor]. split; simpl; lra.
  - repeat split; assumption || apply Hscale.
  - unfold handleAnnotationMouseDown, bounded. effect_fields.
    repeat split; assumption || apply Hscale.
  - unfold handleMouseMove.
    destruct (draggedAnnotation st), rect;
      try (repeat split; assumption || apply Hscale).
    destruct (listenerDraggedType st); (split; [exact Hscale|]); simpl; split;
      try assumption; apply Forall_mapAt; try assumption.
    + intros a (v & Hv & Hle). exists v. split; assumption.
    + intros a [Hw Hh]. split; assumption.
  - unfold handleMouseUp, bounded. effect_fields.
    repeat split; assumption || apply Hscale.
  - split; [exact Hscale|]. split; [|exact Hsigs]. simpl.
    apply Forall_mapAt; [apply fontFloor_increase | exact Htexts].
  - split; [exact Hscale|]. split; [|exact Hsigs]. simpl.
    apply Forall_mapAt; [|exact Htexts]. intros a _. apply fontFloor_decrease.
  - split; [exact Hscale|]. split; [exact Htexts|]. simpl.
    apply Forall_mapAt; [apply sizeFloor_grow | exact Hsigs].
  - split; [exact Hscale|]. split; [exact Htexts|]. simpl.
    apply Forall_mapAt; [|exact Hsigs]. intros a _. apply sizeFloor_shrink.
  - split; [apply handleZoomIn_range, Hscale|].
    unfold handleZoomIn. destruct (Qle_bool _ _); [split; assumption|].
    effect_fields. split; assumption.
  - split; [apply handleZoomOut_range, Hscale|].
    unfold handleZoomOut. destruct (Qle_bool _ _); [split; assumption|].
    effect_fields. split; assumption.
Qed.

(** X1.  Whatever the user does, the zoom stays within [0.5, 2], every font
    size is at least 8 and every signature at least 50 by 25. *)
Lemma run_bounded (events : list Event) : bounded (run initialEditor events).
Proof.
  assert (Hgen : ∀ st, bounded st → bounded (run st events)).
  { unfold run. induction events as [|ev events IH]; intros st Hst; simpl.
    - exact Hst.
    - apply IH, step_bounded, Hst. }
  apply Hgen. split; [split; simpl; lra|]. split; constructor.
Qed.

(** ** Worked interactions *)

Ltac by_computation := vm_compute; first [reflexivity | discriminate].

(** C1.  A text annotation placed at (50, 80) and enlarged once stores
    font size 12 and is previewed at 12 pixels at zoom 1, yet the
    download draws it with size 11 (black, opacity 0.95). *)
Theorem export_draws_enlarged_text_at_11 :
  let st := step (placeText 50 80 loadedEditor) (FontSizeIncrease 0) in
  Text.fontSize <$> textAnnotations st !! 0%nat = Some (Some 12)
  ∧ style_fontSize ∘ textStyle st <$> textAnnotations st !! 0%nat = Some 12
  ∧ handleDownload sampleLoad sampleEncodes sampleEmbedPng sampleSave sampleFile st
    = Downloaded
        [ DrawText 0 sampleText
            {| text_x := 50; text_y := 712; text_size := 11;
               text_color := rgb 0 0 0; text_font := "Helvetica";
               text_opacity := 0.95 |} ]
        [] "edited_form.pdf"
        {| title := "Success";
           description := "PDF downloaded with your edits";
           variant := None |}.
Proof. repeat split; vm_compute; reflexivity. Qed.

(** C2 as stated fails: with the signature tool active at zoom 1, a click
    at (100, 200) on a 612 by 792 page surface commits the signature at
    (306, 396), the centre of the surface, not at the click. *)
Lemma signature_not_placed_at_click :
  let st := setActiveTool ToolSignature loadedEditor in
  let e := clickAt 100 200 in
  let st' := handleSignatureAdd "data:image/png;base64,AAAA" None
               (handlePageClick e surfaceAtOrigin st) in
  ∃ a, signatureAnnotations st' = [a]
       ∧ Signature.x a == 306 ∧ Signature.y a == 396
       ∧ ¬ (Signature.x a == (clientX e - left surfaceAtOrigin) / scale st
            ∧ Signature.y a == (clientY e - top surfaceAtOrigin) / scale st).
Proof.
  eexists. split; [reflexivity|].
  split; [by_computation|]. split; [by_computation|].
  intros [Hx _]. revert Hx. by_computation.
Qed.

(** *** Instances of the theorems *)

Lemma handleTextSubmit_blank_or_verbatim_witness :
  let pending := Some {| pos_x := 50; pos_y := 80 |} in
  let spaces := setNewTextAnnotation [32%N; 9%N] (setEditingPosition pending loadedEditor) in
  let padded := setNewTextAnnotation [32%N; 72%N; 105%N; 32%N]
                  (setEditingPosition pending loadedEditor) in
  handleTextSubmit spaces = spaces
  ∧ textAnnotations (handleTextSubmit padded)
    = [ {| Text.x := 50; Text.y := 80;
           Text.text := [32%N; 72%N; 105%N; 32%N];
           Text.pageNumber := 1; Text.fontSize := Some 11;
           Text.isResizing := None |} ].
Proof.
  intros pending spaces padded. split.
  - apply (proj1 (handleTextSubmit_blank_or_verbatim spaces)).
    repeat constructor.
  - apply (proj2 (handleTextSubmit_blank_or_verbatim padded)
             {| pos_x := 50; pos_y := 80 |}).
    + apply Exists_cons_tl, Exists_cons_hd. reflexivity.
    + reflexivity.
Defined.

Lemma validateAndUploadFile_rejects_witness :
  type textFile ≠ "application/pdf"%string
  ∧ selectedFile (validateAndUploadFile textFile initialShell) = None
  ∧ toasts (validateAndUploadFile textFile initialShell)
    = [ {| title := "Invalid file type";
           description := "Please upload a PDF file";
           variant := Some "destructive"%string |} ]
  ∧ ∀ st, rendersPage (validateAndUploadFile textFile initialShell) st = false.
Proof.
  assert (Htype : type textFile ≠ "application/pdf"%string) by discriminate.
  destruct (validateAndUploadFile_rejects textFile initialShell Htype)
    as (Heq & _ & _ & Hview).
  split; [exact Htype|]. split; [rewrite Heq; reflexivity|].
  split; [rewrite Heq; reflexivity|].
  apply Hview. reflexivity.
Defined.

Lemma signature_placed_at_page_centre_witness :
  signatureAnnotations (placeSignature 100 200 loadedEditor)
  = [ {| Signature.x := 612 / 2 / 1; Signature.y := 792 / 2 / 1;
         Signature.dataUrl := "data:image/png;base64,AAAA";
         Signature.width := 200; Signature.height := 100;
         Signature.pageNumber := 1; Signature.scale := None |} ]
  ∧ signatureAnnotations
      (handleSignatureAdd "data:image/png;base64,AAAA" None loadedEditor)
    = [ {| Signature.x := 300; Signature.y := 400;
           Signature.dataUrl := "data:image/png;base64,AAAA";
           Signature.width := 200; Signature.height := 100;
           Signature.pageNumber := 1; Signature.scale := None |} ].
Proof.
  split.
  - apply (proj1 (signature_placed_at_page_centre
                    (setActiveTool ToolSignature loadedEditor)
                    (clickAt 100 200) surfaceAtOrigin
                    "data:image/png;base64,AAAA" None eq_refl)).
  - apply (proj2 (signature_placed_at_page_centre
                    (setActiveTool ToolSignature loadedEditor)
                    (clickAt 100 200) surfaceAtOrigin
                    "data:image/png;base64,AAAA" None eq_refl) eq_refl).
Defined.

Lemma export_text_anchor_witness :
  ∃ instructions out options,
    handleDownload sampleLoad sampleEncodes sampleEmbedPng sampleSave sampleFile
      (placeText 50 80 loadedEditor)
    = Downloaded instructions out (String.append "edited_" (name sampleFile))
        {| title := "Success";
           description := "PDF downloaded with your edits";
           variant := None |}
    ∧ instructions !! 0%nat = Some (DrawText 0 sampleText options)
    ∧ text_x options = 50
    ∧ text_y options = 792 - 80.
Proof.
  assert (Htexts : textAnnotations (placeText 50 80 loadedEditor)
                   = [ {| Text.x := 50; Text.y := 80; Text.text := sampleText;
                          Text.pageNumber := 1; Text.fontSize := Some 11;
                          Text.isResizing := None |} ])
    by (vm_compute; reflexivity).
  assert (Hsigs : signatureAnnotations (placeText 50 80 loadedEditor) = [])
    by (vm_compute; reflexivity).
  apply (export_text_anchor sampleLoad sampleEncodes sampleEmbedPng sampleSave
           sampleFile (placeText 50 80 loadedEditor) [] [letterPage] 0
           {| Text.x := 50; Text.y := 80; Text.text := sampleText;
              Text.pageNumber := 1; Text.fontSize := Some 11;
              Text.isResizing := None |}
           letterPage 50 80 792).
  - vm_compute. reflexivity.
  - reflexivity.
  - rewrite Htexts. reflexivity.
  - reflexivity.
  - reflexivity.
  - simpl. lia.
  - reflexivity.
  - reflexivity.
  - rewrite Htexts. constructor; [|constructor].
    split; [simpl; lia | reflexivity].
  - rewrite Hsigs. constructor.
  - intros instructions. eexists. reflexivity.
Defined.

Lemma export_signature_anchor_witness :
  let a := {| Signature.x := 50; Signature.y := 80;
              Signature.dataUrl := "data:image/png;base64,AAAA";
              Signature.width := 200; Signature.height := 100;
              Signature.pageNumber := 1; Signature.scale := None |} in
  signatureAnnotations signatureDraggedTo_50_80 = [a]
  ∧ ∃ instructions out,
      handleDownload sampleLoad sampleEncodes sampleEmbedPng sampleSave
        sampleFile signatureDraggedTo_50_80
      = Downloaded instructions out (String.append "edited_" (name sampleFile))
          {| title := "Success";
             description := "PDF downloaded with your edits";
             variant := None |}
      ∧ instructions !! (length (textAnnotations signatureDraggedTo_50_80) + 0)%nat
        = Some (DrawImage 0 {| png := [] |}
                  {| image_x := 50; image_y := 792 - 80 - 100;
                     image_width := 200; image_height := 100 |}).
Proof.
  intros a.
  assert (Hsigs : signatureAnnotations signatureDraggedTo_50_80 = [a])
    by (vm_compute; reflexivity).
  assert (Htexts : textAnnotations signatureDraggedTo_50_80 = [])
    by (vm_compute; reflexivity).
  split; [exact Hsigs|].
  apply (export_signature_anchor sampleLoad sampleEncodes sampleEmbedPng
           sampleSave sampleFile signatureDraggedTo_50_80 [] [letterPage] 0
           a letterPage {| png := [] |} 50 80 100 792).
  - vm_compute. reflexivity.
  - reflexivity.
  - rewrite Hsigs. reflexivity.
  - reflexivity.
  - reflexivity.
  - reflexivity.
  - simpl. lia.
  - reflexivity.
  - reflexivity.
  - reflexivity.
  - rewrite Htexts. constructor.
  - rewrite Hsigs. constructor; [|constructor].
    split; [simpl; lia | eexists; reflexivity].
  - intros instructions. eexists. reflexivity.
Defined.

Lemma font_size_floor_witness :
  let presses := [(FontMinus, 0%nat); (FontMinus, 0%nat); (FontMinus, 0%nat);
                  (FontMinus, 0%nat); (FontPlus, 0%nat)] in
  let start := placeText 50 80 loadedEditor in
  let st := foldl pressFont start presses in
  let floored := foldl pressFont start
                   [(FontMinus, 0%nat); (FontMinus, 0%nat); (FontMinus, 0%nat)] in
  (∃ a' v, textAnnotations st !! 0%nat = Some a'
           ∧ Text.fontSize a' = Some v ∧ 8 <= v)
  ∧ Text.fontSize <$> textAnnotations st !! 0%nat = Some (Some 9)
  ∧ Text.fontSize <$> textAnnotations floored !! 0%nat = Some (Some 8)
  ∧ (∃ a' v', textAnnotations (handleFontSizeDecrease 0 floored) !! 0%nat = Some a'
              ∧ Text.fontSize a' = Some v' ∧ v' == 8)
  ∧ (∃ a' v', textAnnotations (Nat.iter 30 (handleFontSizeIncrease 0) start) !! 0%nat
              = Some a'
              ∧ Text.fontSize a' = Some v' ∧ v' == 41).
Proof.
  intros presses start st floored.
  assert (Hstart : textAnnotations start !! 0%nat
                   = Some {| Text.x := 50; Text.y := 80; Text.text := sampleText;
                             Text.pageNumber := 1; Text.fontSize := Some 11;
                             Text.isResizing := None |})
    by (vm_compute; reflexivity).
  destruct (font_size_floor start 0%nat _ presses Hstart eq_refl)
    as (Hfloor & Hmin & Hplus).
  split; [exact Hfloor|].
  split; [vm_compute; reflexivity|].
  split; [vm_compute; reflexivity|].
  split.
  - apply (Hmin floored
             {| Text.x := 50; Text.y := 80; Text.text := sampleText;
                Text.pageNumber := 1; Text.fontSize := Some 8;
                Text.isResizing := None |} 8).
    + vm_compute. reflexivity.
    + reflexivity.
    + reflexivity.
  - destruct (Hplus 30%nat) as (a' & v' & Ha' & Hv' & Heq).
    exists a', v'. split; [exact Ha'|]. split; [exact Hv'|].
    rewrite Heq. by_computation.
Defined.

Lemma signature_size_floor_witness :
  let start := placeSignature 100 200 loadedEditor in
  let st := foldl pressShrink start (replicate 20 0%nat) in
  (∃ a', signatureAnnotations st !! 0%nat = Some a'
         ∧ 50 <= Signature.width a' ∧ 25 <= Signature.height a')
  ∧ Signature.width <$> signatureAnnotations st !! 0%nat = Some 50
  ∧ Signature.height <$> signatureAnnotations st !! 0%nat = Some 25.
Proof.
  intros start st. split; [|split; vm_compute; reflexivity].
  assert (Hstart : signatureAnnotations start !! 0%nat
                   = Some {| Signature.x := 612 / 2 / 1;
                             Signature.y := 792 / 2 / 1;
                             Signature.dataUrl := "data:image/png;base64,AAAA";
                             Signature.width := 200; Signature.height := 100;
                             Signature.pageNumber := 1;
                             Signature.scale := None |})
    by (vm_compute; reflexivity).
  exact (signature_size_floor start 0%nat _ (replicate 20 0%nat) Hstart
           eq_refl eq_refl).
Defined.


(** * Further properties *)

(** ** How one interaction changes the store *)

Ltac unfold_handlers :=
  unfold handlePageClick, handleTextSubmit, handleTextCancel,
    handleSignatureAdd, handleSignatureCancel, handleAnnotationMouseDown,
    handleMouseMove, handleMouseUp, handleFontSizeIncrease,
    handleFontSizeDecrease, handleSignatureGrow, handleSignatureShrink,
    handleZoomIn, handleZoomOut, dragEffect.

(** No interaction touches the page counter, the page count or the
    loaded document. *)
Lemma step_frame (st : Editor) (ev : Event) :
  numPages (step st ev) = numPages st
  ∧ pageNumber (step st ev) = pageNumber st
  ∧ pdfBytes (step st ev) = pdfBytes st
  ∧ pdfUrl (step st ev) = pdfUrl st.
Proof.
  destruct ev; simpl; unfold_handlers; repeat case_match; simpl; auto.
Qed.

(** The text collection after one interaction is the one before, or the
    one before with a new annotation of the current page at the end, or
    the one before with one element moved or given a new font size. *)
Lemma step_texts (st : Editor) (ev : Event) :
  textAnnotations (step st ev) = textAnnotations st
  ∨ (∃ a, textAnnotations (step st ev) = textAnnotations st ++ [a]
          ∧ Text.pageNumber a = pageNumber st)
  ∨ (∃ k f, textAnnotations (step st ev) = mapAt k f (textAnnotations st)
            ∧ (∀ b, Text.text (f b) = Text.text b
                    ∧ Text.pageNumber (f b) = Text.pageNumber b)
            ∧ ¬ quiet ev).
Proof.
  destruct ev; simpl; unfold_handlers; repeat case_match; simpl;
    first [ left; reflexivity
          | right; left; eexists; split; reflexivity
          | right; right; eexists _, _; split; [reflexivity|];
            split; [intros b; split; reflexivity | tauto] ].
Qed.

Lemma step_signatures (st : Editor) (ev : Event) :
  signatureAnnotations (step st ev) = signatureAnnotations st
  ∨ (∃ a, signatureAnnotations (step st ev) = signatureAnnotations st ++ [a]
          ∧ Signature.pageNumber a = pageNumber st)
  ∨ (∃ k f, signatureAnnotations (step st ev)
            = mapAt k f (signatureAnnotations st)
            ∧ (∀ b, Signature.dataUrl (f b) = Signature.dataUrl b
                    ∧ Signature.pageNumber (f b) = Signature.pageNumber b)
            ∧ ¬ quiet ev).
Proof.
  destruct ev; simpl; unfold_handlers; repeat case_match; simpl;
    first [ left; reflexivity
          | right; left; eexists; split; reflexivity
          | right; right; eexists _, _; split; [reflexivity|];
            split; [intros b; split; reflexivity | tauto] ].
Qed.

(** Navigation and the asynchronous completions leave both collections
    alone. *)
Lemma act_other_store (st : Editor) (a : Action) :
  (∀ ev, a ≠ Edit ev) →
  textAnnotations (act st a) = textAnnotations st
  ∧ signatureAnnotations (act st a) = signatureAnnotations st.
Proof.
  intros Hne. destruct a as [ev| | |n|arrayBuffer url]; simpl.
  - destruct (Hne ev eq_refl).
  - unfold handlePreviousPage. case_match; auto.
  - unfold handleNextPage. case_match; auto.
  - auto.
  - destruct arrayBuffer; auto.
Qed.

(** ** What interactions keep *)

Lemma act_keeps_text (st : Editor) (a0 : Action) (i : nat) (a : Text.t) :
  textAnnotations st !! i = Some a →
  ∃ a', textAnnotations (act st a0) !! i = Some a'
        ∧ Text.text a' = Text.text a
        ∧ Text.pageNumber a' = Text.pageNumber a.
Proof.
  intros Ha. destruct a0 as [ev| | |n|arrayBuffer url];
    try (match goal with
         | |- context [act st ?x] =>
             rewrite (proj1 (act_other_store st x ltac:(discriminate)))
         end; exists a; repeat split; assumption || reflexivity).
  simpl. destruct (step_texts st ev) as [-> | [(b & -> & _) | (k & f & -> & Hf & _)]].
  - exists a. auto.
  - exists a. split; [apply lookup_app_l_Some, Ha | auto].
  - rewrite lookup_mapAt, Ha. simpl. case_bool_decide; eexists;
      (split; [reflexivity|]); [apply Hf | auto].
Qed.

Lemma act_keeps_signature (st : Editor) (a0 : Action) (i : nat)
    (a : Signature.t) :
  signatureAnnotations st !! i = Some a →
  ∃ a', signatureAnnotations (act st a0) !! i = Some a'
        ∧ Signature.dataUrl a' = Signature.dataUrl a
        ∧ Signature.pageNumber a' = Signature.pageNumber a.
Proof.
  intros Ha. destruct a0 as [ev| | |n|arrayBuffer url];
    try (match goal with
         | |- context [act st ?x] =>
             rewrite (proj2 (act_other_store st x ltac:(discriminate)))
         end; exists a; repeat split; assumption || reflexivity).
  simpl.
  destruct (step_signatures st ev)
    as [-> | [(b & -> & _) | (k & f & -> & Hf & _)]].
  - exists a. auto.
  - exists a. split; [apply lookup_app_l_Some, Ha | auto].
  - rewrite lookup_mapAt, Ha. simpl. case_bool_decide; eexists;
      (split; [reflexivity|]); [apply Hf | auto].
Qed.

(** X2.  Nothing is ever deleted or re-labelled: whatever happens to the
    editor, a text annotation stays at its index with its text and page,
    and a signature stays at its index with its image and page. *)
Theorem annotations_never_removed (st : Editor) (actions : list Action) :
  (∀ i a, textAnnotations st !! i = Some a →
          ∃ a', textAnnotations (perform st actions) !! i = Some a'
                ∧ Text.text a' = Text.text a
                ∧ Text.pageNumber a' = Text.pageNumber a)
  ∧ (∀ i a, signatureAnnotations st !! i = Some a →
            ∃ a', signatureAnnotations (perform st actions) !! i = Some a'
                  ∧ Signature.dataUrl a' = Signature.dataUrl a
                  ∧ Signature.pageNumber a' = Signature.pageNumber a).
Proof.
  unfold perform. revert st.
  induction actions as [|a0 actions IH]; intros st; simpl.
  - split; intros i a Ha; exists a; auto.
  - destruct (IH (act st a0)) as [IHt IHs]. split; intros i a Ha.
    + destruct (act_keeps_text st a0 i a Ha) as (a1 & Ha1 & Ht1 & Hp1).
      destruct (IHt i a1 Ha1) as (a' & Ha' & Ht' & Hp').
      exists a'. repeat split; congruence.
    + destruct (act_keeps_signature st a0 i a Ha) as (a1 & Ha1 & Ht1 & Hp1).
      destruct (IHs i a1 Ha1) as (a' & Ha' & Ht' & Hp').
      exists a'. repeat split; congruence.
Qed.

(** X3.  Interactions other than pointer-moves and the resize buttons
    (so: zooming, selecting a tool, clicking, typing, committing,
    cancelling, pressing and releasing) leave every existing annotation
    exactly as stored; they can only append new ones. *)
Theorem quiet_events_only_append (st : Editor) (events : list Event) :
  Forall quiet events →
  ∃ newTexts newSignatures,
    textAnnotations (run st events) = textAnnotations st ++ newTexts
    ∧ signatureAnnotations (run st events)
      = signatureAnnotations st ++ newSignatures.
Proof.
  unfold run. revert st.
  induction events as [|ev events IH]; intros st Hq; simpl.
  - exists [], []. rewrite !app_nil_r. auto.
  - inversion Hq as [|? ? Hev Hrest]; subst.
    destruct (IH (step st ev) Hrest) as (nt & ns & -> & ->).
    assert (Ht : ∃ added, textAnnotations (step st ev)
                          = textAnnotations st ++ added).
    { destruct (step_texts st ev) as [-> | [(b & -> & _) | (k & f & _ & _ & Hn)]].
      - exists []. rewrite app_nil_r. reflexivity.
      - eauto.
      - contradiction. }
    assert (Hs : ∃ added, signatureAnnotations (step st ev)
                          = signatureAnnotations st ++ added).
    { destruct (step_signatures st ev)
        as [-> | [(b & -> & _) | (k & f & _ & _ & Hn)]].
      - exists []. rewrite app_nil_r. reflexivity.
      - eauto.
      - contradiction. }
    destruct Ht as (at1 & ->). destruct Hs as (as1 & ->).
    exists (at1 ++ nt), (as1 ++ ns). rewrite !app_assoc. auto.
Qed.

(** ** Page numbers *)

Lemma act_pagesWithin (N : Z) (st : Editor) (a : Action) :
  (1 ≤ N)%Z → reports N a → pagesWithin N st → pagesWithin N (act st a).
Proof.
  intros HN Hrep (Hpage & Hcount & Htexts & Hsigs).
  destruct a as [ev| | |n|arrayBuffer url]; simpl in *.
  - destruct (step_frame st ev) as (Hn & Hp & _ & _).
    unfold pagesWithin. rewrite Hn, Hp.
    split; [exact Hpage|]. split; [exact Hcount|]. split.
    + destruct (step_texts st ev)
        as [-> | [(b & -> & Hb) | (k & f & -> & Hf & _)]].
      * exact Htexts.
      * apply Forall_app. split; [exact Htexts|].
        constructor; [rewrite Hb; exact Hpage | constructor].
      * apply Forall_mapAt; [|exact Htexts].
        intros b Hb. rewrite (proj2 (Hf b)). exact Hb.
    + destruct (step_signatures st ev)
        as [-> | [(b & -> & Hb) | (k & f & -> & Hf & _)]].
      * exact Hsigs.
      * apply Forall_app. split; [exact Hsigs|].
        constructor; [rewrite Hb; exact Hpage | constructor].
      * apply Forall_mapAt; [|exact Hsigs].
        intros b Hb. rewrite (proj2 (Hf b)). exact Hb.
  - unfold handlePreviousPage.
    destruct (Z.leb_spec (pageNumber st) 1);
      repeat split; simpl; try assumption; try apply Hpage; lia.
  - unfold handleNextPage.
    destruct Hcount as [Hc | Hc]; rewrite Hc;
      [repeat split; simpl; try assumption; try apply Hpage; auto|].
    destruct (Z.leb_spec N (pageNumber st));
      [repeat split; simpl; try assumption; try apply Hpage; auto|].
    unfold count_or_default.
    destruct (Z.eqb_spec N 0); [lia|].
    repeat split; simpl; try assumption; auto; lia.
  - subst n. repeat split; simpl; try assumption; try apply Hpage; auto.
  - destruct arrayBuffer; repeat split; simpl; try assumption;
      try apply Hpage; auto.
Qed.

Lemma perform_pagesWithin (N : Z) (actions : list Action) (st : Editor) :
  (1 ≤ N)%Z → Forall (reports N) actions → pagesWithin N st →
  pagesWithin N (perform st actions).
Proof.
  intros HN. unfold perform. revert st.
  induction actions as [|a actions IH]; intros st Hrep Hst; simpl.
  - exact Hst.
  - inversion Hrep; subst. apply IH; [assumption|].
    apply act_pagesWithin; assumption.
Qed.

Lemma initial_pagesWithin (N : Z) : (1 ≤ N)%Z → pagesWithin N initialEditor.
Proof.
  intros HN. repeat split; simpl; try lia; auto.
Qed.

(** X4.  In an editor whose renderer reports N pages (N at least 1), the
    page on display and the page recorded in every annotation are between
    1 and N, whatever the user does. *)
Theorem page_numbers_within_document (N : Z) (actions : list Action) :
  (1 ≤ N)%Z →
  Forall (reports N) actions →
  let st := perform initialEditor actions in
  (1 ≤ pageNumber st ≤ N)%Z
  ∧ Forall (λ a, 1 ≤ Text.pageNumber a ≤ N)%Z (textAnnotations st)
  ∧ Forall (λ a, 1 ≤ Signature.pageNumber a ≤ N)%Z (signatureAnnotations st).
Proof.
  intros HN Hrep st.
  destruct (perform_pagesWithin N actions initialEditor HN Hrep
              (initial_pagesWithin N HN)) as (Hp & _ & Ht & Hs).
  auto.
Qed.

(** ** Export, continued *)

Lemma getPage_out_of_range (pages : list PageSize) (pageNumber : Z) :
  (pageNumber < 1 ∨ Z.of_nat (length pages) < pageNumber)%Z →
  getPage pages pageNumber = None.
Proof.
  intros Hout. unfold getPage.
  destruct (Z.ltb_spec (pageNumber - 1) 0); [reflexivity|].
  rewrite lookup_ge_None_2 by lia. reflexivity.
Qed.

Lemma mapM_None {A B} (f : A → option B) (l : list A) :
  Exists (λ x, f x = None) l → mapM f l = None.
Proof.
  intros Hex. destruct (mapM f l) as [k|] eqn:Hk; [|reflexivity].
  exfalso. assert (Hall : Forall (is_Some ∘ f) l).
  { apply mapM_is_Some. rewrite Hk. eauto. }
  apply Exists_exists in Hex as (x & Hin & Hx).
  rewrite Forall_forall in Hall. destruct (Hall x Hin) as [y Hy].
  simpl in Hy. congruence.
Qed.

Lemma exportText_shape (encodes : jsstring → bool) (pages : list PageSize)
    (a : Text.t) (instruction : DrawInstruction) :
  exportText encodes pages a = Some instruction →
  ∃ options,
    instruction
    = DrawText (Z.to_nat (Text.pageNumber a - 1)) (Text.text a) options.
Proof.
  unfold exportText, getPage. intros H.
  destruct (Z.ltb_spec (Text.pageNumber a - 1) 0); [discriminate|].
  destruct (pages !! Z.to_nat (Text.pageNumber a - 1)); simpl in H;
    [|discriminate].
  destruct (encodes (Text.text a)); [|discriminate].
  injection H as <-. eauto.
Qed.

Lemma exportSignature_shape (embedPng : string → option PDFImage)
    (pages : list PageSize) (a : Signature.t) (instruction : DrawInstruction) :
  exportSignature embedPng pages a = Some instruction →
  ∃ img options,
    instruction = DrawImage (Z.to_nat (Signature.pageNumber a - 1)) img options
    ∧ embedPng (Signature.dataUrl a) = Some img
    ∧ image_width options = Signature.width a
    ∧ image_height options = Signature.height a.
Proof.
  unfold exportSignature, getPage. intros H.
  destruct (Z.ltb_spec (Signature.pageNumber a - 1) 0); [discriminate|].
  destruct (pages !! Z.to_nat (Signature.pageNumber a - 1)); simpl in H;
    [|discriminate].
  destruct (embedPng (Signature.dataUrl a)) as [img|]; simpl in H;
    [|discriminate].
  injection H as <-. eexists _, _. repeat split; reflexivity.
Qed.

Section ExportMore.
Variable load : list Byte.byte → option (list PageSize).
Variable encodes : jsstring → bool.
Variable embedPng : string → option PDFImage.
Variable save : list PageSize → list DrawInstruction → option (list Byte.byte).

(** The download reads the loaded bytes and the two collections, nothing
    else. *)
Lemma handleDownload_ext (file : File) (st st' : Editor) :
  pdfBytes st' = pdfBytes st →
  textAnnotations st' = textAnnotations st →
  signatureAnnotations st' = signatureAnnotations st →
  handleDownload load encodes embedPng save file st'
  = handleDownload load encodes embedPng save file st.
Proof.
  intros Hb Ht Hs. unfold handleDownload, exportDocument.
  rewrite Hb, Ht, Hs. reflexivity.
Qed.

(** X5.  In an editor whose renderer reports N pages, once the bytes are
    there and the mutation library finds the same N pages, encodes every
    stored text, accepts the images and saves, the download completes,
    whatever the user did before: no annotation placed through the editor
    can point outside the document.  It carries one instruction per stored
    annotation. *)
Theorem export_completes_for_placed_annotations (file : File) (N : Z)
    (actions : list Action) (bytes : list Byte.byte) (pages : list PageSize) :
  (1 ≤ N)%Z →
  Forall (reports N) actions →
  let st := perform initialEditor actions in
  pdfBytes st = Some bytes →
  load bytes = Some pages →
  Z.of_nat (length pages) = N →
  Forall (λ a, encodes (Text.text a) = true) (textAnnotations st) →
  (∀ url, is_Some (embedPng url)) →
  (∀ instructions, is_Some (save pages instructions)) →
  ∃ instructions out,
    handleDownload load encodes embedPng save file st
    = Downloaded instructions out (String.append "edited_" (name file))
        {| title := "Success";
           description := "PDF downloaded with your edits";
           variant := None |}
    ∧ length instructions
      = (length (textAnnotations st) + length (signatureAnnotations st))%nat.
Proof.
  intros HN Hrep st Hbytes Hload Hlen Henc Hembed Hsave.
  destruct (perform_pagesWithin N actions initialEditor HN Hrep
              (initial_pagesWithin N HN)) as (_ & _ & Ht & Hs).
  fold st in Ht, Hs.
  destruct (handleDownload_completes_in_range load encodes embedPng save file
              st bytes pages Hbytes Hload) as (instructions & out & Hd).
  - apply Forall_lookup. intros i a Ha. split.
    + rewrite Hlen. exact (Forall_lookup_1 _ _ _ _ Ht Ha).
    + exact (Forall_lookup_1 _ _ _ _ Henc Ha).
  - eapply Forall_impl; [exact Hs|]. intros a Ha. simpl in Ha. split.
    + rewrite Hlen. exact Ha.
    + apply Hembed.
  - exact Hsave.
  - exists instructions, out. split; [exact Hd|].
    apply handleDownload_instructions in Hd
      as (bytes' & pages' & texts & signatures & _ & _ & Hts & Hss & ->).
    rewrite length_app, (Forall2_length _ _ _ Hts), (Forall2_length _ _ _ Hss).
    reflexivity.
Qed.

(** X6.  A completed download is offered as [edited_] followed by the
    file name, with the success notice, and holds exactly one instruction
    per annotation: for the k-th text annotation a [drawText] of its text on
    the page it names, at position k; for the k-th signature a [drawImage]
    of its embedded data URL with its stored width and height on the page
    it names, at position k after the texts. *)
Theorem download_draws_each_annotation_once (file : File) (st : Editor)
    (instructions : list DrawInstruction) (out : list Byte.byte)
    (download : string) (notice : Toast) :
  handleDownload load encodes embedPng save file st
  = Downloaded instructions out download notice →
  download = String.append "edited_" (name file)
  ∧ notice = {| title := "Success";
                description := "PDF downloaded with your edits";
                variant := None |}
  ∧ length instructions
    = (length (textAnnotations st) + length (signatureAnnotations st))%nat
  ∧ (∀ k a, textAnnotations st !! k = Some a →
            ∃ options,
              instructions !! k
              = Some (DrawText (Z.to_nat (Text.pageNumber a - 1))
                        (Text.text a) options))
  ∧ (∀ k a, signatureAnnotations st !! k = Some a →
            ∃ img options,
              instructions !! (length (textAnnotations st) + k)%nat
              = Some (DrawImage (Z.to_nat (Signature.pageNumber a - 1)) img
                        options)
              ∧ embedPng (Signature.dataUrl a) = Some img
              ∧ image_width options = Signature.width a
              ∧ image_height options = Signature.height a).
Proof.
  intros Hd.
  assert (Hmeta : download = String.append "edited_" (name file)
                  ∧ notice = {| title := "Success";
                                description := "PDF downloaded with your edits";
                                variant := None |}).
  { unfold handleDownload in Hd. destruct (pdfBytes st); [|discriminate].
    destruct (exportDocument load encodes embedPng save st l) as [[? ?]|];
      [|discriminate].
    injection Hd as _ _ <- <-. auto. }
  destruct Hmeta as [Hname Hnotice].
  apply handleDownload_instructions in Hd
    as (bytes & pages & texts & signatures & _ & _ & Hts & Hss & ->).
  split; [exact Hname|]. split; [exact Hnotice|]. split; [|split].
  - rewrite length_app, (Forall2_length _ _ _ Hts), (Forall2_length _ _ _ Hss).
    reflexivity.
  - intros k a Ha.
    destruct (Forall2_lookup_l _ _ _ _ _ Hts Ha) as (i & Hi & Hai).
    destruct (exportText_shape _ _ _ _ Hai) as (options & ->).
    exists options. apply lookup_app_l_Some, Hi.
  - intros k a Ha.
    destruct (Forall2_lookup_l _ _ _ _ _ Hss Ha) as (i & Hi & Hai).
    destruct (exportSignature_shape _ _ _ _ Hai)
      as (img & options & -> & Himg & Hw & Hh).
    exists img, options. split; [|auto].
    rewrite (Forall2_length _ _ _ Hts), lookup_app_r by lia.
    replace (length texts + k - length texts)%nat with k by lia. exact Hi.
Qed.

(** X7.  No partial output: if a single text annotation or signature
    names a page outside the loaded document, a single text cannot be
    encoded by the font, or a single signature image cannot be embedded,
    the whole download fails with the error notice. *)
Theorem download_fails_as_a_whole (file : File) (st : Editor)
    (bytes : list Byte.byte) (pages : list PageSize) :
  pdfBytes st = Some bytes →
  load bytes = Some pages →
  Exists (λ a, (Text.pageNumber a < 1
                ∨ Z.of_nat (length pages) < Text.pageNumber a)%Z
               ∨ encodes (Text.text a) = false)
    (textAnnotations st)
  ∨ Exists (λ a, (Signature.pageNumber a < 1
                  ∨ Z.of_nat (length pages) < Signature.pageNumber a)%Z
                 ∨ embedPng (Signature.dataUrl a) = None)
      (signatureAnnotations st) →
  handleDownload load encodes embedPng save file st
  = ExportFailed {| title := "Error";
                    description := "Failed to save PDF file";
                    variant := Some "destructive"%string |}.
Proof.
  intros Hbytes Hload Hbad.
  unfold handleDownload, exportDocument. rewrite Hbytes, Hload. simpl.
  destruct Hbad as [Hbad | Hbad].
  - rewrite (mapM_None (exportText encodes pages)); [reflexivity|].
    eapply Exists_impl; [exact Hbad|]. intros a Ha. simpl in Ha.
    unfold exportText. destruct Ha as [Ha | Ha].
    + rewrite getPage_out_of_range by exact Ha. reflexivity.
    + destruct (getPage pages (Text.pageNumber a)) as [[i page]|];
        [|reflexivity].
      simpl. rewrite Ha. reflexivity.
  - destruct (mapM (exportText encodes pages) (textAnnotations st));
      [|reflexivity].
    simpl. rewrite (mapM_None (exportSignature embedPng pages)); [reflexivity|].
    eapply Exists_impl; [exact Hbad|]. intros a Ha. simpl in Ha.
    unfold exportSignature. destruct Ha as [Ha | Ha].
    + rewrite getPage_out_of_range by exact Ha. reflexivity.
    + destruct (getPage pages (Signature.pageNumber a)) as [[i page]|];
        [|reflexivity].
      simpl. rewrite Ha. reflexivity.
Qed.

Lemma act_viewOnly (st : Editor) (a : Action) :
  viewOnly a →
  pdfBytes (act st a) = pdfBytes st
  ∧ textAnnotations (act st a) = textAnnotations st
  ∧ signatureAnnotations (act st a) = signatureAnnotations st.
Proof.
  intros Hv. destruct a as [ev| | |n|arrayBuffer url]; simpl in *;
    [destruct ev; simpl in *; try contradiction; unfold_handlers
    |unfold handlePreviousPage|unfold handleNextPage| |contradiction];
    repeat case_match; simpl; auto.
Qed.

(** X8.  What is exported does not depend on the view: selecting tools,
    clicking, typing, cancelling, starting or ending a drag, zooming and
    turning pages, in any order, leave the outcome of a download as it
    was. *)
Theorem view_actions_keep_export (file : File) (st : Editor)
    (actions : list Action) :
  Forall viewOnly actions →
  handleDownload load encodes embedPng save file (perform st actions)
  = handleDownload load encodes embedPng save file st.
Proof.
  unfold perform. revert st.
  induction actions as [|a actions IH]; intros st Hv; simpl.
  - reflexivity.
  - inversion Hv; subst. rewrite IH by assumption.
    destruct (act_viewOnly st a) as (Hb & Ht & Hs); [assumption|].
    apply handleDownload_ext; assumption.
Qed.

(** X9.  Until a read of the file completes, the editor has neither the
    bytes nor the blob URL, whatever else happens: [Download PDF] does
    nothing and the page renderer is not mounted. *)
Theorem no_download_before_load (file : File) (actions : list Action) :
  Forall (λ a, ¬ loads a) actions →
  let st := perform initialEditor actions in
  handleDownload load encodes embedPng save file st = NotLoaded
  ∧ pdfUrl st = None
  ∧ ∀ s, rendersPage s st = false.
Proof.
  intros Hno st.
  assert (Hinv : pdfBytes st = None ∧ pdfUrl st = None).
  { subst st. unfold perform.
    assert (Hgen : ∀ s, pdfBytes s = None ∧ pdfUrl s = None →
                        pdfBytes (foldl act s actions) = None
                        ∧ pdfUrl (foldl act s actions) = None).
    { induction actions as [|a actions IH]; intros s Hs; simpl; [exact Hs|].
      inversion Hno as [|? ? Ha Hrest]; subst. apply IH; [exact Hrest|].
      destruct a as [ev| | |n|[b|] url]; simpl in *.
      - destruct (step_frame s ev) as (_ & _ & -> & ->). exact Hs.
      - unfold handlePreviousPage. case_match; exact Hs.
      - unfold handleNextPage. case_match; exact Hs.
      - exact Hs.
      - destruct (Ha I).
      - exact Hs. }
    apply Hgen. split; reflexivity. }
  destruct Hinv as [Hb Hu]. split; [|split].
  - unfold handleDownload. rewrite Hb. reflexivity.
  - exact Hu.
  - intros s. unfold rendersPage. rewrite Hu. destruct (App s); reflexivity.
Qed.

End ExportMore.

(** ** Rendered index and stored index *)

Section Filter.
Context {A : Type} (P : A → Prop) `{!∀ x, Decision (P x)}.

Lemma filter_all (l : list A) : Forall P l → filter P l = l.
Proof.
  induction 1 as [|x l Hx Hl IH]; [reflexivity|].
  rewrite filter_cons_True by assumption. rewrite IH. reflexivity.
Qed.

Lemma filter_prefix_lookup (l : list A) (k : nat) :
  Forall P (take (S k) l) → filter P l !! k = l !! k.
Proof.
  intros Hpre. rewrite <- (take_drop (S k) l) at 1.
  rewrite filter_app, (filter_all _ Hpre).
  destruct (decide (k < length l)%nat) as [Hlt|Hge].
  - rewrite lookup_app_l by (rewrite length_take; lia).
    apply lookup_take_lt. lia.
  - rewrite drop_ge by lia. rewrite take_ge by lia.
    rewrite app_nil_r. reflexivity.
Qed.

Lemma mapAt_cons_0 (f : A → A) (x : A) (l : list A) :
  mapAt 0 f (x :: l) = f x :: l.
Proof.
  apply list_eq. intros [|i].
  - rewrite lookup_mapAt_eq. reflexivity.
  - rewrite lookup_mapAt_ne by discriminate. reflexivity.
Qed.

Lemma mapAt_cons_S (f : A → A) (k : nat) (x : A) (l : list A) :
  mapAt (S k) f (x :: l) = x :: mapAt k f l.
Proof.
  apply list_eq. intros [|i].
  - rewrite lookup_mapAt_ne by discriminate. reflexivity.
  - rewrite lookup_mapAt.
    change ((x :: l) !! S i) with (l !! i).
    change ((x :: mapAt k f l) !! S i) with (mapAt k f l !! i).
    rewrite lookup_mapAt.
    destruct (l !! i); simpl; [|reflexivity].
    repeat case_bool_decide; try reflexivity; lia.
Qed.

(** Changing an element that the filter drops, in a way the filter does
    not see, leaves the filtered list alone. *)
Lemma filter_mapAt_hidden (f : A → A) (l : list A) (k : nat) (a : A) :
  l !! k = Some a → ¬ P a → (∀ b, P (f b) ↔ P b) →
  filter P (mapAt k f l) = filter P l.
Proof.
  intros Ha Hna Hf. revert k Ha.
  induction l as [|x l IH]; intros [|k] Ha; simpl in Ha; try discriminate.
  - injection Ha as ->. rewrite mapAt_cons_0.
    rewrite !filter_cons_False; [reflexivity | assumption | rewrite Hf; assumption].
  - rewrite mapAt_cons_S, !filter_cons. rewrite (IH k Ha). reflexivity.
Qed.
End Filter.

(** X10.  The handlers of the k-th rendered annotation act on the k-th
    stored one; the two are the same annotation whenever every stored
    annotation up to index k is on the page on display (so always in a
    document edited on a single page). *)
Theorem rendered_index_is_stored_index (st : Editor) (k : nat) :
  (Forall (λ a, Text.pageNumber a = pageNumber st)
     (take (S k) (textAnnotations st)) →
   visibleTextAnnotations st !! k = textAnnotations st !! k)
  ∧ (Forall (λ a, Signature.pageNumber a = pageNumber st)
       (take (S k) (signatureAnnotations st)) →
     visibleSignatureAnnotations st !! k = signatureAnnotations st !! k).
Proof.
  split; intros Hpre; apply filter_prefix_lookup; exact Hpre.
Qed.

Lemma dragging_frame (index : nat) (type : AnnotationType)
    (moves : list (MouseEvent * DOMRect)) (st : Editor) :
  pageNumber (dragging index type moves st) = pageNumber st.
Proof.
  unfold dragging. induction moves as [|m moves IH] using rev_ind.
  - exact (proj1 (proj2 (step_frame st (AnnotationMouseDown index type)))).
  - rewrite foldl_snoc, <- IH.
    exact (proj1 (proj2 (step_frame _ (MouseMove (fst m) (Some (snd m)))))).
Qed.

Lemma handleAnnotationMouseDown_store (index : nat) (type : AnnotationType)
    (st : Editor) :
  textAnnotations (handleAnnotationMouseDown index type st) = textAnnotations st
  ∧ signatureAnnotations (handleAnnotationMouseDown index type st)
    = signatureAnnotations st.
Proof.
  unfold handleAnnotationMouseDown. effect_fields. split; reflexivity.
Qed.

Lemma dragging_texts (index : nat) (type : AnnotationType)
    (moves : list (MouseEvent * DOMRect)) (st : Editor) :
  textAnnotations (dragging index type moves st) = textAnnotations st
  ∨ ∃ nx ny, textAnnotations (dragging index type moves st)
             = mapAt index (Text.moveTo nx ny) (textAnnotations st).
Proof.
  destruct moves as [|m moves _] using rev_ind.
  - left. apply handleAnnotationMouseDown_store.
  - destruct m as [e rect].
    pose proof (dragging_last index type moves e rect st) as Hlast.
    simpl in Hlast.
    destruct (listenerDraggedType (handleAnnotationMouseDown index type st));
      destruct Hlast as [H1 H2]; [right; eauto | left; exact H2].
Qed.

Lemma dragging_signatures (index : nat) (type : AnnotationType)
    (moves : list (MouseEvent * DOMRect)) (st : Editor) :
  signatureAnnotations (dragging index type moves st) = signatureAnnotations st
  ∨ ∃ nx ny, signatureAnnotations (dragging index type moves st)
             = mapAt index (Signature.moveTo nx ny) (signatureAnnotations st).
Proof.
  destruct moves as [|m moves _] using rev_ind.
  - left. apply handleAnnotationMouseDown_store.
  - destruct m as [e rect].
    pose proof (dragging_last index type moves e rect st) as Hlast.
    simpl in Hlast.
    destruct (listenerDraggedType (handleAnnotationMouseDown index type st));
      destruct Hlast as [H1 H2]; [left; exact H2 | right; eauto].
Qed.

(** X11.  When the stored text annotation at index k belongs to another
    page than the one on display, the font buttons and the drag bound to
    index k change that hidden annotation and nothing that is rendered:
    the buttons give it the new font size, a drag session opened on index
    k gives it the position of the last pointer-move, and the text
    annotations of the page on display stay exactly as they are. *)
Theorem controls_reach_hidden_annotation (st : Editor) (k : nat) (a : Text.t) :
  textAnnotations st !! k = Some a →
  Text.pageNumber a ≠ pageNumber st →
  visibleTextAnnotations (handleFontSizeIncrease k st)
  = visibleTextAnnotations st
  ∧ textAnnotations (handleFontSizeIncrease k st) !! k
    = Some (Text.withFontSize (shownFontSize a + 1) a)
  ∧ visibleTextAnnotations (handleFontSizeDecrease k st)
    = visibleTextAnnotations st
  ∧ textAnnotations (handleFontSizeDecrease k st) !! k
    = Some (Text.withFontSize (Math_max 8 (shownFontSize a - 1)) a)
  ∧ (∀ moves,
       visibleTextAnnotations (dragging k TypeText moves st)
       = visibleTextAnnotations st)
  ∧ (∀ moves e rect,
       draggedAnnotation st ≠ Some k →
       textAnnotations (dragging k TypeText (moves ++ [(e, rect)]) st) !! k
       = Some {| Text.x := (clientX e - left rect) / scale st;
                 Text.y := (clientY e - top rect) / scale st;
                 Text.text := Text.text a;
                 Text.pageNumber := Text.pageNumber a;
                 Text.fontSize := Text.fontSize a;
                 Text.isResizing := Text.isResizing a |}).
Proof.
  intros Ha Hpage. unfold visibleTextAnnotations.
  split; [|split; [|split; [|split; [|split]]]].
  - unfold handleFontSizeIncrease. simpl.
    apply (filter_mapAt_hidden _ _ _ k a Ha Hpage). intros b. reflexivity.
  - unfold handleFontSizeIncrease. simpl. rewrite lookup_mapAt_eq, Ha.
    reflexivity.
  - unfold handleFontSizeDecrease. simpl.
    apply (filter_mapAt_hidden _ _ _ k a Ha Hpage). intros b. reflexivity.
  - unfold handleFontSizeDecrease. simpl. rewrite lookup_mapAt_eq, Ha.
    reflexivity.
  - intros moves. rewrite dragging_frame.
    destruct (dragging_texts k TypeText moves st) as [-> | (nx & ny & ->)];
      [reflexivity|].
    apply (filter_mapAt_hidden _ _ _ k a Ha Hpage). intros b. reflexivity.
  - intros moves e rect Hopen.
    pose proof (dragging_last k TypeText moves e rect st) as Hlast.
    rewrite (handleAnnotationMouseDown_listener k TypeText st Hopen) in Hlast.
    simpl in Hlast. destruct Hlast as [-> _].
    rewrite lookup_mapAt_eq, Ha. reflexivity.
Qed.

(** ** Proportions of a signature *)

Lemma proportioned_shrink (a : Signature.t) :
  proportioned a →
  proportioned (Signature.withSize (Math_max 50 (Signature.width a * 0.9))
                  (Math_max 25 (Signature.height a * 0.9)) a).
Proof.
  unfold proportioned, Math_max. simpl. intros Hw.
  destruct (Q.max_spec 50 (Signature.width a * 0.9)) as [[Hlt ->] | [Hle ->]];
    destruct (Q.max_spec 25 (Signature.height a * 0.9))
      as [[Hlt' ->] | [Hle' ->]]; lra.
Qed.

Lemma act_proportioned (st : Editor) (a : Action) :
  ¬ grows a →
  Forall proportioned (signatureAnnotations st) →
  Forall proportioned (signatureAnnotations (act st a)).
Proof.
  intros Hgrow Hst. destruct a as [ev| | |n|arrayBuffer url];
    try (match goal with
         | |- context [act st ?x] =>
             rewrite (proj2 (act_other_store st x ltac:(discriminate)))
         end; exact Hst).
  destruct ev; simpl in *; try (destruct (Hgrow I));
    unfold_handlers; repeat case_match; simpl;
    first
      [ exact Hst
      | apply Forall_app; split; [exact Hst|];
        constructor; [|constructor]; unfold proportioned; simpl; lra
      | apply Forall_mapAt; [|exact Hst];
        first [ apply proportioned_shrink | intros b Hb; exact Hb ] ].
Qed.

(** X12.  As long as the [+] button of a signature is not pressed, every
    signature in the store is exactly twice as wide as it is high,
    whatever else the user does: it starts as 200 by 100, the shrink
    button scales the two sides alike, and the floors 50 and 25 are in the
    same proportion. *)
Theorem signatures_stay_two_to_one (actions : list Action) :
  Forall (λ a, ¬ grows a) actions →
  Forall (λ a, Signature.width a == 2 * Signature.height a)
    (signatureAnnotations (perform initialEditor actions)).
Proof.
  unfold perform.
  assert (Hgen : ∀ st, Forall (λ a, ¬ grows a) actions →
                       Forall proportioned (signatureAnnotations st) →
                       Forall proportioned
                         (signatureAnnotations (foldl act st actions))).
  { induction actions as [|a actions IH]; intros st Hno Hst; simpl.
    - exact Hst.
    - inversion Hno; subst. apply IH; [assumption|].
      apply act_proportioned; assumption. }
  intros Hno. apply Hgen; [exact Hno | constructor].
Qed.

(** ** Buttons that undo each other *)

(** X13.  On a text annotation whose font size is at least 8, pressing
    [+] and then [-] gives back the font size it had, and changes nothing
    else in the collection. *)
Theorem increase_then_decrease_restores (st : Editor) (index : nat)
    (a : Text.t) (v : Q) :
  textAnnotations st !! index = Some a →
  Text.fontSize a = Some v →
  8 <= v →
  let st' := handleFontSizeDecrease index (handleFontSizeIncrease index st) in
  (∃ a' v',
     textAnnotations st' !! index = Some a'
     ∧ Text.fontSize a' = Some v' ∧ v' == v
     ∧ Text.x a' = Text.x a ∧ Text.y a' = Text.y a
     ∧ Text.text a' = Text.text a
     ∧ Text.pageNumber a' = Text.pageNumber a)
  ∧ (∀ j, j ≠ index → textAnnotations st' !! j = textAnnotations st !! j)
  ∧ signatureAnnotations st' = signatureAnnotations st.
Proof.
  intros Ha Hv Hle st'. subst st'.
  unfold handleFontSizeDecrease, handleFontSizeIncrease. simpl.
  split; [|split; [|reflexivity]].
  - rewrite !lookup_mapAt_eq, Ha. simpl.
    eexists _, _. split; [reflexivity|]. split; [reflexivity|].
    split; [|repeat split; reflexivity].
    rewrite Hv, or_default_floor by assumption.
    destruct (Qeq_bool (v + 1) 0) eqn:E; [apply Qeq_bool_eq in E; lra|].
    unfold Math_max. rewrite Q.max_r by lra. ring.
  - intros j Hj. rewrite !lookup_mapAt_ne by assumption. reflexivity.
Qed.

(** ** Placing a text, end to end *)

(** X14.  With the text tool selected, a click on the page followed by
    typing a string with a non-whitespace character and pressing [Add]
    appends one annotation: at the click's offset divided by the zoom, on
    the page on display, with the typed string and font size 11.  The
    prompt is closed, the input cleared, the tool back to none, and the
    signatures are untouched. *)
Theorem text_placement (st : Editor) (e : MouseEvent) (rect : DOMRect)
    (value : jsstring) :
  activeTool st = ToolText →
  Exists (λ c, is_white_space c = false) value →
  let st' := run st [PageClick e rect; TextInput value; TextSubmit] in
  textAnnotations st'
  = textAnnotations st ++
      [ {| Text.x := (clientX e - left rect) / scale st;
           Text.y := (clientY e - top rect) / scale st;
           Text.text := value;
           Text.pageNumber := pageNumber st;
           Text.fontSize := Some 11;
           Text.isResizing := None |} ]
  ∧ activeTool st' = ToolNone
  ∧ editingText st' = false
  ∧ editingPosition st' = None
  ∧ newTextAnnotation st' = []
  ∧ signatureAnnotations st' = signatureAnnotations st.
Proof.
  intros Htool Hvalue st'. subst st'. apply truthy_trim_true in Hvalue.
  unfold run. simpl. unfold handlePageClick. rewrite Htool.
  unfold handleTextSubmit. simpl. rewrite Hvalue. simpl.
  repeat split; reflexivity.
Qed.

(** ** Drag sessions, edge cases *)

Lemma handleMouseMove_idle (e : MouseEvent) (rect : option DOMRect)
    (st : Editor) :
  draggedAnnotation st = None → handleMouseMove e rect st = st.
Proof. intros Hd. unfold handleMouseMove. rewrite Hd. reflexivity. Qed.

(** X15.  Once the pointer is released, pointer-moves change nothing
    until the next pointer-down on an annotation; the same holds before
    the first drag. *)
Theorem moves_after_release_do_nothing (st : Editor)
    (moves : list (MouseEvent * option DOMRect)) :
  foldl (λ s m, handleMouseMove (fst m) (snd m) s) (handleMouseUp st) moves
  = handleMouseUp st
  ∧ foldl (λ s m, handleMouseMove (fst m) (snd m) s) initialEditor moves
    = initialEditor.
Proof.
  assert (Hgen : ∀ s, draggedAnnotation s = None →
                      foldl (λ s m, handleMouseMove (fst m) (snd m) s) s moves
                      = s).
  { induction moves as [|m moves IH]; intros s Hs; simpl; [reflexivity|].
    rewrite handleMouseMove_idle by assumption. apply IH, Hs. }
  split; apply Hgen; [apply handleMouseUp_fields | reflexivity].
Qed.

(** X16.  An index at or beyond the end of a collection selects nothing:
    the resize buttons and a whole drag bound to such an index leave the
    collection as it is. *)
Theorem index_out_of_range_changes_nothing (st : Editor) (index : nat) :
  ((length (textAnnotations st) ≤ index)%nat →
   textAnnotations (handleFontSizeIncrease index st) = textAnnotations st
   ∧ textAnnotations (handleFontSizeDecrease index st) = textAnnotations st
   ∧ ∀ moves, textAnnotations (dragging index TypeText moves st)
              = textAnnotations st)
  ∧ ((length (signatureAnnotations st) ≤ index)%nat →
     signatureAnnotations (handleSignatureGrow index st)
     = signatureAnnotations st
     ∧ signatureAnnotations (handleSignatureShrink index st)
       = signatureAnnotations st
     ∧ ∀ moves, signatureAnnotations (dragging index TypeSignature moves st)
                = signatureAnnotations st).
Proof.
  split; intros Hlen; (split; [|split]);
    try (unfold_handlers; simpl; apply mapAt_out_of_range; exact Hlen).
  - intros moves.
    destruct (dragging_texts index TypeText moves st)
      as [-> | (nx & ny & ->)];
      [reflexivity | apply mapAt_out_of_range; exact Hlen].
  - intros moves.
    destruct (dragging_signatures index TypeSignature moves st)
      as [-> | (nx & ny & ->)];
      [reflexivity | apply mapAt_out_of_range; exact Hlen].
Qed.

(** ** The signature-capture widget *)

Lemma canvas_drawing_keeps_editor (pageElement : option Element)
    (draws : list CanvasEvent) (s : Editor * bool) :
  Forall drawing draws → fst (foldl (canvasStep pageElement) s draws) = fst s.
Proof.
  revert s. induction draws as [|ev draws IH]; intros s Hd; simpl;
    [reflexivity|].
  inversion Hd as [|? ? Hev Hrest]; subst. rewrite IH by assumption.
  destruct ev; simpl in Hev; try contradiction; reflexivity.
Qed.

(** X17.  In a freshly opened capture widget, after any strokes and
    presses of [Clear], [Save] commits the signature exactly when the last
    of them was a stroke; on an untouched or just cleared pad, and when the
    pad is not there, it leaves the editor as it is. *)
Theorem save_needs_a_stroke (pageElement : option Element) (st : Editor)
    (draws : list CanvasEvent) (dataUrl : string) :
  Forall drawing draws →
  let saved pad :=
    fst (foldl (canvasStep pageElement) (st, true) (draws ++ [SaveClick pad])) in
  (last draws = Some StrokeBegin →
   saved (Some dataUrl) = handleSignatureAdd dataUrl pageElement st)
  ∧ (last draws ≠ Some StrokeBegin → saved (Some dataUrl) = st)
  ∧ saved None = st.
Proof.
  intros Hd saved. subst saved. cbv beta.
  rewrite !foldl_snoc. simpl.
  pose proof (canvas_drawing_keeps_editor pageElement draws (st, true) Hd)
    as Hfst. simpl in Hfst.
  assert (Hsnd : snd (foldl (canvasStep pageElement) (st, true) draws)
                 = match last draws with
                   | Some StrokeBegin => false
                   | _ => true
                   end).
  { destruct draws as [|ev pre _] using rev_ind; [reflexivity|].
    rewrite foldl_snoc, last_snoc.
    apply Forall_app in Hd as [_ Hev]. inversion Hev as [|? ? Hdraw _]; subst.
    destruct ev; simpl in Hdraw; try contradiction; reflexivity. }
  rewrite Hfst, Hsnd. unfold handleSave.
  split; [|split].
  - intros Hlast. rewrite Hlast. reflexivity.
  - intros Hlast. destruct (last draws) as [[| | |]|]; try reflexivity.
    contradiction.
  - reflexivity.
Qed.

(** ** The uploader over time *)

Lemma validateAndUploadFile_one_toast (file : File) (s : Shell) :
  length (toasts (validateAndUploadFile file s)) = S (length (toasts s)).
Proof.
  unfold validateAndUploadFile. case_match; simpl;
    rewrite length_app; simpl; lia.
Qed.

Lemma validateAndUploadFile_selected (file : File) (s : Shell) (f : File) :
  selectedFile (validateAndUploadFile file s) = Some f →
  selectedFile s = Some f ∨ type f = "application/pdf"%string.
Proof.
  unfold validateAndUploadFile.
  destruct (String.eqb_spec (type file) "application/pdf") as [Heq|Hne]; simpl.
  - intros H. injection H as <-. right. exact Heq.
  - intros H. left. exact H.
Qed.

Lemma shellStep_invariant (s : Shell) (ev : UploadEvent) :
  (∀ f, selectedFile s = Some f → type f = "application/pdf"%string) →
  (∀ f, selectedFile (shellStep s ev) = Some f →
        type f = "application/pdf"%string)
  ∧ length (toasts (shellStep s ev))
    = (length (toasts s) + if isAttempt ev then 1 else 0)%nat.
Proof.
  intros Hs. destruct ev as [| |files|files|]; simpl.
  - split; [exact Hs | lia].
  - split; [exact Hs | lia].
  - unfold handleDrop. destruct files as [|file rest]; simpl.
    + split; [exact Hs | lia].
    + split.
      * intros f Hf. apply validateAndUploadFile_selected in Hf as [Hf|Hf];
          [apply Hs; exact Hf | exact Hf].
      * rewrite validateAndUploadFile_one_toast. simpl. lia.
  - destruct files as [|file rest]; simpl.
    + split; [exact Hs | lia].
    + split.
      * intros f Hf. apply validateAndUploadFile_selected in Hf as [Hf|Hf];
          [apply Hs; exact Hf | exact Hf].
      * rewrite validateAndUploadFile_one_toast. lia.
  - split; [discriminate | lia].
Qed.

(** X18.  Whatever is dragged, dropped or picked, the file handed to the
    editor is always one whose MIME type is [application/pdf], and every
    drop or selection that carries a file raises exactly one notice
    (nothing else raises any). *)
Theorem selected_file_is_always_pdf (events : list UploadEvent) :
  let s := foldl shellStep initialShell events in
  (∀ f, App s = EditorView f → type f = "application/pdf"%string)
  ∧ length (toasts s) = attempts events.
Proof.
  assert (Hgen : ∀ s0,
             (∀ f, selectedFile s0 = Some f → type f = "application/pdf"%string) →
             (∀ f, selectedFile (foldl shellStep s0 events) = Some f →
                   type f = "application/pdf"%string)
             ∧ length (toasts (foldl shellStep s0 events))
               = (length (toasts s0) + attempts events)%nat).
  { induction events as [|ev events IH]; intros s0 Hs0; simpl.
    - split; [exact Hs0 | unfold attempts; simpl; lia].
    - destruct (shellStep_invariant s0 ev Hs0) as [Hsel Hlen].
      destruct (IH _ Hsel) as [Hsel' Hlen']. split; [exact Hsel'|].
      rewrite Hlen', Hlen. unfold attempts. rewrite filter_cons.
      destruct (decide (isAttempt ev = true)) as [Hd|Hd].
      + rewrite Hd. simpl. lia.
      + destruct (isAttempt ev); [congruence|]. simpl. lia. }
  intros s. destruct (Hgen initialShell) as [Hsel Hlen]; [discriminate|].
  split.
  - intros f Hview. apply Hsel. unfold App in Hview. subst s.
    destruct (selectedFile _); [|discriminate]. congruence.
  - exact Hlen.
Qed.

(** *** Instances of the further properties *)

Lemma annotations_never_removed_witness :
  let actions := [Edit (FontSizeIncrease 0); Edit ZoomIn; PreviousPage;
                  Edit (AnnotationMouseDown 0 TypeText);
                  Edit (MouseMove (clickAt 10 20) (Some surfaceAtOrigin))] in
  textAnnotations twoPageEditor !! 0%nat = Some textOnPage1
  ∧ signatureAnnotations twoPageEditor !! 0%nat = Some signatureOnPage2
  ∧ (∃ a', textAnnotations (perform twoPageEditor actions) !! 0%nat = Some a'
           ∧ Text.text a' = Text.text textOnPage1
           ∧ Text.pageNumber a' = Text.pageNumber textOnPage1)
  ∧ (∃ a', signatureAnnotations (perform twoPageEditor actions) !! 0%nat
           = Some a'
           ∧ Signature.dataUrl a' = Signature.dataUrl signatureOnPage2
           ∧ Signature.pageNumber a' = Signature.pageNumber signatureOnPage2).
Proof.
  intros actions.
  assert (Ht : textAnnotations twoPageEditor !! 0%nat = Some textOnPage1)
    by (vm_compute; reflexivity).
  assert (Hs : signatureAnnotations twoPageEditor !! 0%nat
               = Some signatureOnPage2) by (vm_compute; reflexivity).
  split; [exact Ht|]. split; [exact Hs|]. split.
  - exact (proj1 (annotations_never_removed twoPageEditor actions)
             0%nat textOnPage1 Ht).
  - exact (proj2 (annotations_never_removed twoPageEditor actions)
             0%nat signatureOnPage2 Hs).
Defined.

Lemma quiet_events_only_append_witness :
  let events := [ZoomIn; SelectTool ToolSignature;
                 PageClick (clickAt 100 200) surfaceAtOrigin;
                 SignatureAdd "data:image/png;base64,AAAA" None; ZoomOut] in
  let st := placeText 50 80 loadedEditor in
  Forall quiet events
  ∧ ∃ newTexts newSignatures,
      textAnnotations (run st events) = textAnnotations st ++ newTexts
      ∧ signatureAnnotations (run st events)
        = signatureAnnotations st ++ newSignatures.
Proof.
  intros events st.
  assert (Hq : Forall quiet events) by (repeat constructor).
  split; [exact Hq|]. exact (quiet_events_only_append st events Hq).
Defined.

Lemma page_numbers_within_document_witness :
  let actions := twoPageSession ++ [NextPage; NextPage; PreviousPage] in
  let st := perform initialEditor actions in
  (1 ≤ 2)%Z
  ∧ Forall (reports 2) actions
  ∧ (1 ≤ pageNumber st ≤ 2)%Z
  ∧ Forall (λ a, 1 ≤ Text.pageNumber a ≤ 2)%Z (textAnnotations st)
  ∧ Forall (λ a, 1 ≤ Signature.pageNumber a ≤ 2)%Z (signatureAnnotations st).
Proof.
  intros actions st.
  assert (HN : (1 ≤ 2)%Z) by lia.
  assert (Hrep : Forall (reports 2) actions) by (repeat constructor).
  split; [exact HN|]. split; [exact Hrep|].
  exact (page_numbers_within_document 2 actions HN Hrep).
Defined.

Lemma export_completes_for_placed_annotations_witness :
  pdfBytes twoPageEditor = Some []
  ∧ ∃ instructions out,
      handleDownload twoPageLoad sampleEncodes sampleEmbedPng sampleSave sampleFile
        twoPageEditor
      = Downloaded instructions out (String.append "edited_" (name sampleFile))
          {| title := "Success";
             description := "PDF downloaded with your edits";
             variant := None |}
      ∧ length instructions
        = (length (textAnnotations twoPageEditor)
           + length (signatureAnnotations twoPageEditor))%nat.
Proof.
  assert (Hbytes : pdfBytes twoPageEditor = Some []) by (vm_compute; reflexivity).
  split; [exact Hbytes|].
  apply (export_completes_for_placed_annotations twoPageLoad sampleEncodes sampleEmbedPng
           sampleSave sampleFile 2 twoPageSession [] [letterPage; letterPage]).
  - lia.
  - repeat constructor.
  - exact Hbytes.
  - reflexivity.
  - reflexivity.
  - vm_compute. repeat constructor.
  - intros url. eexists. reflexivity.
  - intros instructions. eexists. reflexivity.
Defined.

Lemma download_draws_each_annotation_once_witness :
  ∃ instructions out download notice,
    handleDownload twoPageLoad sampleEncodes sampleEmbedPng sampleSave sampleFile twoPageEditor
    = Downloaded instructions out download notice
    ∧ download = String.append "edited_" (name sampleFile)
    ∧ length instructions
      = (length (textAnnotations twoPageEditor)
         + length (signatureAnnotations twoPageEditor))%nat.
Proof.
  assert (Hd : ∃ instructions out download notice,
             handleDownload twoPageLoad sampleEncodes sampleEmbedPng sampleSave sampleFile
               twoPageEditor
             = Downloaded instructions out download notice).
  { eexists _, _, _, _. vm_compute. reflexivity. }
  destruct Hd as (instructions & out & download & notice & Hd).
  exists instructions, out, download, notice. split; [exact Hd|].
  destruct (download_draws_each_annotation_once twoPageLoad sampleEncodes sampleEmbedPng
              sampleSave sampleFile twoPageEditor instructions out download
              notice Hd) as (Hname & _ & Hlen & _).
  split; [exact Hname | exact Hlen].
Defined.

Lemma download_fails_as_a_whole_witness :
  pdfBytes twoPageEditor = Some []
  ∧ signatureAnnotations twoPageEditor = [signatureOnPage2]
  ∧ handleDownload sampleLoad sampleEncodes sampleEmbedPng sampleSave
      sampleFile twoPageEditor
    = ExportFailed {| title := "Error";
                      description := "Failed to save PDF file";
                      variant := Some "destructive"%string |}
  ∧ Text.text <$> textAnnotations checkMarkEditor = [[10003%N]]
  ∧ handleDownload sampleLoad sampleEncodes sampleEmbedPng sampleSave
      sampleFile checkMarkEditor
    = ExportFailed {| title := "Error";
                      description := "Failed to save PDF file";
                      variant := Some "destructive"%string |}.
Proof.
  assert (Hbytes : pdfBytes twoPageEditor = Some []) by (vm_compute; reflexivity).
  assert (Hs : signatureAnnotations twoPageEditor = [signatureOnPage2])
    by (vm_compute; reflexivity).
  assert (Hbytes' : pdfBytes checkMarkEditor = Some [])
    by (vm_compute; reflexivity).
  assert (Ht : textAnnotations checkMarkEditor
               = [ {| Text.x := 50; Text.y := 80; Text.text := [10003%N];
                      Text.pageNumber := 1; Text.fontSize := Some 11;
                      Text.isResizing := None |} ])
    by (vm_compute; reflexivity).
  split; [exact Hbytes|]. split; [exact Hs|]. split; [|split].
  - apply (download_fails_as_a_whole sampleLoad sampleEncodes sampleEmbedPng
             sampleSave sampleFile twoPageEditor [] [letterPage] Hbytes eq_refl).
    right. rewrite Hs. apply Exists_cons_hd. left. right. simpl. lia.
  - rewrite Ht. reflexivity.
  - apply (download_fails_as_a_whole sampleLoad sampleEncodes sampleEmbedPng
             sampleSave sampleFile checkMarkEditor [] [letterPage] Hbytes'
             eq_refl).
    left. rewrite Ht. apply Exists_cons_hd. right. reflexivity.
Defined.

Lemma view_actions_keep_export_witness :
  let actions := [Edit ZoomIn; PreviousPage; Edit (SelectTool ToolText);
                  Edit (PageClick (clickAt 5 5) surfaceAtOrigin);
                  Edit TextCancel] in
  Forall viewOnly actions
  ∧ handleDownload twoPageLoad sampleEncodes sampleEmbedPng sampleSave sampleFile
      (perform twoPageEditor actions)
    = handleDownload twoPageLoad sampleEncodes sampleEmbedPng sampleSave sampleFile
        twoPageEditor.
Proof.
  intros actions.
  assert (Hv : Forall viewOnly actions) by (repeat constructor).
  split; [exact Hv|].
  exact (view_actions_keep_export twoPageLoad sampleEncodes sampleEmbedPng sampleSave
           sampleFile twoPageEditor actions Hv).
Defined.

Lemma no_download_before_load_witness :
  let actions := [Edit (SelectTool ToolText); LoadPdf None "blob:0";
                  DocumentLoadSuccess 3; Edit ZoomIn] in
  Forall (λ a, ¬ loads a) actions
  ∧ handleDownload sampleLoad sampleEncodes sampleEmbedPng sampleSave sampleFile
      (perform initialEditor actions) = NotLoaded
  ∧ pdfUrl (perform initialEditor actions) = None.
Proof.
  intros actions.
  assert (Hno : Forall (λ a, ¬ loads a) actions).
  { repeat (constructor; [intros H; exact H|]). constructor. }
  split; [exact Hno|].
  destruct (no_download_before_load sampleLoad sampleEncodes sampleEmbedPng sampleSave
              sampleFile actions Hno) as (Hd & Hu & _).
  split; [exact Hd | exact Hu].
Defined.

Lemma rendered_index_is_stored_index_witness :
  Forall (λ a, Text.pageNumber a = pageNumber crowdedEditor)
    (take 1 (textAnnotations crowdedEditor))
  ∧ Forall (λ a, Signature.pageNumber a = pageNumber crowdedEditor)
      (take 2 (signatureAnnotations crowdedEditor))
  ∧ visibleTextAnnotations crowdedEditor !! 0%nat
    = textAnnotations crowdedEditor !! 0%nat
  ∧ visibleSignatureAnnotations crowdedEditor !! 1%nat
    = signatureAnnotations crowdedEditor !! 1%nat.
Proof.
  assert (Ht : Forall (λ a, Text.pageNumber a = pageNumber crowdedEditor)
                 (take 1 (textAnnotations crowdedEditor)))
    by (vm_compute; repeat constructor).
  assert (Hs : Forall (λ a, Signature.pageNumber a = pageNumber crowdedEditor)
                 (take 2 (signatureAnnotations crowdedEditor)))
    by (vm_compute; repeat constructor).
  split; [exact Ht|]. split; [exact Hs|]. split.
  - exact (proj1 (rendered_index_is_stored_index crowdedEditor 0) Ht).
  - exact (proj2 (rendered_index_is_stored_index crowdedEditor 1) Hs).
Defined.

Lemma controls_reach_hidden_annotation_witness :
  let dragged :=
    dragging 0 TypeText
      ([(clickAt 150 160, surfaceOffset)] ++ [(clickAt 320 450, surfaceOffset)])
      twoTextsEditor in
  textAnnotations twoTextsEditor !! 0%nat = Some textOnPage1
  ∧ Text.pageNumber textOnPage1 ≠ pageNumber twoTextsEditor
  ∧ draggedAnnotation twoTextsEditor ≠ Some 0%nat
  ∧ visibleTextAnnotations (handleFontSizeIncrease 0 twoTextsEditor)
    = visibleTextAnnotations twoTextsEditor
  ∧ textAnnotations (handleFontSizeIncrease 0 twoTextsEditor) !! 0%nat
    = Some (Text.withFontSize (shownFontSize textOnPage1 + 1) textOnPage1)
  ∧ visibleTextAnnotations dragged = visibleTextAnnotations twoTextsEditor
  ∧ textAnnotations dragged !! 0%nat
    = Some {| Text.x := 300; Text.y := 400; Text.text := sampleText;
              Text.pageNumber := 1; Text.fontSize := Some 11;
              Text.isResizing := None |}.
Proof.
  intros dragged.
  assert (Ha : textAnnotations twoTextsEditor !! 0%nat = Some textOnPage1)
    by (vm_compute; reflexivity).
  assert (Hp : Text.pageNumber textOnPage1 ≠ pageNumber twoTextsEditor)
    by (vm_compute; discriminate).
  assert (Hidle : draggedAnnotation twoTextsEditor ≠ Some 0%nat)
    by (vm_compute; discriminate).
  split; [exact Ha|]. split; [exact Hp|]. split; [exact Hidle|].
  destruct (controls_reach_hidden_annotation twoTextsEditor 0 textOnPage1 Ha Hp)
    as (Hvis & Hstored & _ & _ & Hdrag & Hmoved).
  split; [exact Hvis|]. split; [exact Hstored|]. split; [apply Hdrag|].
  subst dragged.
  rewrite (Hmoved [(clickAt 150 160, surfaceOffset)] (clickAt 320 450)
             surfaceOffset Hidle).
  vm_compute. reflexivity.
Defined.

Lemma signatures_stay_two_to_one_witness :
  let actions := twoPageSession
                 ++ [Edit (SignatureShrink 0); Edit ZoomIn;
                     Edit (AnnotationMouseDown 0 TypeSignature);
                     Edit (MouseMove (clickAt 10 20) (Some surfaceAtOrigin));
                     Edit MouseUp; Edit (SignatureShrink 0)] in
  Forall (λ a, ¬ grows a) actions
  ∧ Forall (λ a, Signature.width a == 2 * Signature.height a)
      (signatureAnnotations (perform initialEditor actions))
  ∧ Signature.width <$> signatureAnnotations (perform initialEditor actions)
    = [200 * 0.9 * 0.9].
Proof.
  intros actions.
  assert (Hno : Forall (λ a, ¬ grows a) actions).
  { repeat (constructor; [intros H; exact H|]). constructor. }
  split; [exact Hno|].
  split; [exact (signatures_stay_two_to_one actions Hno)|].
  vm_compute. reflexivity.
Defined.

Lemma increase_then_decrease_restores_witness :
  let st := placeText 50 80 loadedEditor in
  let st' := handleFontSizeDecrease 0 (handleFontSizeIncrease 0 st) in
  textAnnotations st !! 0%nat = Some textOnPage1
  ∧ 8 <= 11
  ∧ ∃ a' v', textAnnotations st' !! 0%nat = Some a'
             ∧ Text.fontSize a' = Some v' ∧ v' == 11.
Proof.
  intros st st'.
  assert (Ha : textAnnotations st !! 0%nat = Some textOnPage1)
    by (vm_compute; reflexivity).
  assert (Hle : 8 <= 11) by by_computation.
  split; [exact Ha|]. split; [exact Hle|].
  destruct (increase_then_decrease_restores st 0 textOnPage1 11 Ha eq_refl Hle)
    as ((a' & v' & Ha' & Hv' & Heq & _) & _).
  exists a', v'. split; [exact Ha'|]. split; [exact Hv' | exact Heq].
Defined.

Lemma text_placement_witness :
  let st := setActiveTool ToolText loadedEditor in
  let value := [32%N; 72%N; 105%N] in
  let st' := run st [PageClick (clickAt 70 90) surfaceOffset;
                     TextInput value; TextSubmit] in
  Exists (λ c, is_white_space c = false) value
  ∧ textAnnotations st'
    = [ {| Text.x := (70 - 20) / 1; Text.y := (90 - 50) / 1;
           Text.text := value; Text.pageNumber := 1;
           Text.fontSize := Some 11; Text.isResizing := None |} ]
  ∧ activeTool st' = ToolNone.
Proof.
  intros st value st'.
  assert (Hv : Exists (λ c, is_white_space c = false) value)
    by (apply Exists_cons_tl, Exists_cons_hd; reflexivity).
  split; [exact Hv|].
  destruct (text_placement st (clickAt 70 90) surfaceOffset value eq_refl Hv)
    as (Ht & Htool & _).
  split; [exact Ht | exact Htool].
Defined.

Lemma index_out_of_range_changes_nothing_witness :
  (length (textAnnotations crowdedEditor) ≤ 5)%nat
  ∧ (length (signatureAnnotations crowdedEditor) ≤ 5)%nat
  ∧ textAnnotations (handleFontSizeIncrease 5 crowdedEditor)
    = textAnnotations crowdedEditor
  ∧ signatureAnnotations (handleSignatureShrink 5 crowdedEditor)
    = signatureAnnotations crowdedEditor.
Proof.
  assert (Ht : (length (textAnnotations crowdedEditor) ≤ 5)%nat)
    by (vm_compute; lia).
  assert (Hs : (length (signatureAnnotations crowdedEditor) ≤ 5)%nat)
    by (vm_compute; lia).
  split; [exact Ht|]. split; [exact Hs|]. split.
  - exact (proj1 (proj1 (index_out_of_range_changes_nothing crowdedEditor 5) Ht)).
  - exact (proj1 (proj2 (proj2 (index_out_of_range_changes_nothing
                                  crowdedEditor 5) Hs))).
Defined.

Lemma save_needs_a_stroke_witness :
  let st := handlePageClick (clickAt 100 200) surfaceAtOrigin
              (setActiveTool ToolSignature loadedEditor) in
  let url := "data:image/png;base64,AAAA"%string in
  fst (foldl (canvasStep None) (st, true)
         ([StrokeBegin; ClearClick; StrokeBegin] ++ [SaveClick (Some url)]))
  = handleSignatureAdd url None st
  ∧ fst (foldl (canvasStep None) (st, true)
           ([StrokeBegin; ClearClick] ++ [SaveClick (Some url)]))
    = st.
Proof.
  intros st url. split.
  - apply (proj1 (save_needs_a_stroke None st
                    [StrokeBegin; ClearClick; StrokeBegin] url
                    ltac:(repeat constructor))).
    reflexivity.
  - apply (proj1 (proj2 (save_needs_a_stroke None st
                           [StrokeBegin; ClearClick] url
                           ltac:(repeat constructor)))).
    discriminate.
Defined.

Lemma selected_file_is_always_pdf_witness :
  let events := [DragOver; Drop [textFile; sampleFile];
                 FileInputChange [sampleFile]] in
  let s := foldl shellStep initialShell events in
  App s = EditorView sampleFile
  ∧ type sampleFile = "application/pdf"%string
  ∧ length (toasts s) = attempts events.
Proof.
  intros events s.
  assert (Hview : App s = EditorView sampleFile) by (vm_compute; reflexivity).
  destruct (selected_file_is_always_pdf events) as [Hpdf Hlen].
  split; [exact Hview|]. split; [exact (Hpdf sampleFile Hview) | exact Hlen].
Defined.

(** ** From a drag to the exported page *)

Lemma dragging_pdfBytes (index : nat) (type : AnnotationType)
    (moves : list (MouseEvent * DOMRect)) (st : Editor) :
  pdfBytes (dragging index type moves st) = pdfBytes st.
Proof.
  unfold dragging. induction moves as [|m moves IH] using rev_ind.
  - exact (proj1 (proj2 (proj2
             (step_frame st (AnnotationMouseDown index type))))).
  - rewrite foldl_snoc, <- IH.
    exact (proj1 (proj2 (proj2
             (step_frame _ (MouseMove (fst m) (Some (snd m))))))).
Qed.

(** X19.  What is dropped is what is exported: after a pointer-down that
    opens a session on a text annotation (none was open on its index), a
    drag whose last pointer-move is at offset (px, py) from the document
    surface at zoom z, and the release, every completed download draws
    its text at (px / z, H - py / z) on its page of natural height H. *)
Theorem dragged_text_is_exported_where_dropped
    (load : list Byte.byte → option (list PageSize))
    (encodes : jsstring → bool)
    (embedPng : string → option PDFImage)
    (save : list PageSize → list DrawInstruction → option (list Byte.byte))
    (file : File) (st : Editor) (k : nat) (a : Text.t)
    (moves : list (MouseEvent * DOMRect)) (e : MouseEvent) (rect : DOMRect)
    (bytes : list Byte.byte) (pages : list PageSize) (page : PageSize) :
  draggedAnnotation st ≠ Some k →
  textAnnotations st !! k = Some a →
  pdfBytes st = Some bytes →
  load bytes = Some pages →
  (1 ≤ Text.pageNumber a)%Z →
  pages !! Z.to_nat (Text.pageNumber a - 1) = Some page →
  let released := handleMouseUp (dragging k TypeText (moves ++ [(e, rect)]) st) in
  ∀ instructions out download notice,
    handleDownload load encodes embedPng save file released
    = Downloaded instructions out download notice →
    ∃ options,
      instructions !! k
      = Some (DrawText (Z.to_nat (Text.pageNumber a - 1)) (Text.text a) options)
      ∧ text_x options = (clientX e - left rect) / scale st
      ∧ text_y options
        = page_height page - (clientY e - top rect) / scale st.
Proof.
  intros Hopen Ha Hbytes Hload Hpos Hpage released instructions out download
    notice Hd.
  pose proof (dragging_last k TypeText moves e rect st) as Hlast.
  rewrite (handleAnnotationMouseDown_listener k TypeText st Hopen) in Hlast.
  simpl in Hlast. destruct Hlast as [Htexts _].
  apply handleDownload_instructions in Hd
    as (bytes' & pages' & texts & signatures & Hb' & Hl' & Ht & _ & ->).
  subst released. unfold handleMouseUp in Hb', Ht.
  destruct (dragEffect_listener
              (dragging k TypeText (moves ++ [(e, rect)]) st)
              (setDraggedAnnotation None
                 (dragging k TypeText (moves ++ [(e, rect)]) st)))
    as [L HL].
  rewrite HL in Hb', Ht. simpl in Hb', Ht.
  rewrite dragging_pdfBytes, Hbytes in Hb'. injection Hb' as <-.
  rewrite Hload in Hl'. injection Hl' as <-.
  rewrite Htexts in Ht.
  assert (Hk : mapAt k (Text.moveTo ((clientX e - left rect) / scale st)
                          ((clientY e - top rect) / scale st))
                 (textAnnotations st) !! k
               = Some (Text.moveTo ((clientX e - left rect) / scale st)
                         ((clientY e - top rect) / scale st) a)).
  { rewrite lookup_mapAt_eq, Ha. reflexivity. }
  destruct (Forall2_lookup_l _ _ _ _ _ Ht Hk) as (i & Hi & Hai).
  unfold exportText in Hai. simpl in Hai.
  rewrite (getPage_Some _ _ _ Hpos Hpage) in Hai. simpl in Hai.
  destruct (encodes (Text.text a)); [|discriminate].
  injection Hai as <-.
  eexists. split; [apply lookup_app_l_Some, Hi|]. split; reflexivity.
Qed.

(** ** Turning pages *)

(** X20.  Below the last page, [Next] shows the following page and
    [Previous] then brings the same page back; nothing else in the editor
    changes on the way. *)
Theorem next_then_previous_returns (st : Editor) (N : Z) :
  numPages st = Some N →
  (1 ≤ pageNumber st < N)%Z →
  pageNumber (handleNextPage st) = (pageNumber st + 1)%Z
  ∧ handlePreviousPage (handleNextPage st) = setPageNumber (pageNumber st) st.
Proof.
  intros Hn [Hlo Hhi].
  assert (Hnext : handleNextPage st = setPageNumber (pageNumber st + 1) st).
  { unfold handleNextPage. rewrite Hn.
    destruct (Z.leb_spec N (pageNumber st)); [lia|].
    unfold count_or_default. destruct (Z.eqb_spec N 0); [lia|].
    rewrite Z.min_r by lia. reflexivity. }
  rewrite Hnext. split; [reflexivity|].
  unfold handlePreviousPage. simpl.
  destruct (Z.leb_spec (pageNumber st + 1) 1); [lia|].
  rewrite Z.max_r by lia.
  replace (pageNumber st + 1 - 1)%Z with (pageNumber st) by lia.
  reflexivity.
Qed.

Lemma dragged_text_is_exported_where_dropped_witness :
  let st := placeText 50 80 loadedEditor in
  let released :=
    handleMouseUp
      (dragging 0 TypeText
         ([(clickAt 150 160, surfaceOffset)]
          ++ [(clickAt 320 450, surfaceOffset)]) st) in
  draggedAnnotation st ≠ Some 0%nat
  ∧ textAnnotations st !! 0%nat = Some textOnPage1
  ∧ ∃ instructions out download notice options,
      handleDownload sampleLoad sampleEncodes sampleEmbedPng sampleSave
        sampleFile released
      = Downloaded instructions out download notice
      ∧ instructions !! 0%nat = Some (DrawText 0 sampleText options)
      ∧ text_x options = (320 - 20) / 1
      ∧ text_y options = 792 - (450 - 50) / 1.
Proof.
  intros st released.
  assert (Ha : textAnnotations st !! 0%nat = Some textOnPage1)
    by (vm_compute; reflexivity).
  assert (Hb : pdfBytes st = Some []) by (vm_compute; reflexivity).
  assert (Hidle : draggedAnnotation st ≠ Some 0%nat)
    by (vm_compute; discriminate).
  split; [exact Hidle|]. split; [exact Ha|].
  assert (Hd : ∃ instructions out download notice,
             handleDownload sampleLoad sampleEncodes sampleEmbedPng sampleSave
               sampleFile released
             = Downloaded instructions out download notice).
  { eexists _, _, _, _. vm_compute. reflexivity. }
  destruct Hd as (instructions & out & download & notice & Hd).
  destruct (dragged_text_is_exported_where_dropped sampleLoad sampleEncodes sampleEmbedPng
              sampleSave sampleFile st 0 textOnPage1
              [(clickAt 150 160, surfaceOffset)] (clickAt 320 450)
              surfaceOffset [] [letterPage] letterPage
              Hidle Ha Hb eq_refl ltac:(simpl; lia) eq_refl
              instructions out download notice Hd)
    as (options & Hi & Hx & Hy).
  exists instructions, out, download, notice, options.
  split; [exact Hd|]. split; [exact Hi|]. split; [exact Hx | exact Hy].
Defined.

Lemma next_then_previous_returns_witness :
  let st := onDocumentLoadSuccess 3 initialEditor in
  numPages st = Some 3%Z
  ∧ (1 ≤ pageNumber st < 3)%Z
  ∧ pageNumber (handleNextPage st) = 2%Z
  ∧ handlePreviousPage (handleNextPage st) = setPageNumber 1 st.
Proof.
  intros st.
  assert (Hr : (1 ≤ pageNumber st < 3)%Z) by (simpl; lia).
  split; [reflexivity|]. split; [exact Hr|].
  exact (next_then_previous_returns st 3 eq_refl Hr).
Defined.
